(** * CycloidalCalculator: the bearing lookup and the derivation handlers

    A shallow embedding of [CycloidCalculator.py].  The file has three layers:

    - [Py]: the Python built-ins the program calls on its texts and numbers
      ([float], [int], [str] of a float, the [.3f] format, [abs], [<]),
      with floats as IEEE 754 binary64 values ([spec_float], precision 53);
    - the program itself: [load_bearings], [find_bearing_by_ID], the two
      trace handlers and [calculate_cycloidal_params], over an explicit
      record of the Tk widgets' texts;
    - the properties of the program.

    Texts are [string]s whose characters are one-byte code points. *)

From Stdlib Require Import ZArith List String Ascii Bool Lia.
From Stdlib Require Import Floats.SpecFloat.
From stdpp Require Import base gmap strings.

Import ListNotations.
Local Open Scope string_scope.
Local Open Scope list_scope.
Local Open Scope Z_scope.

(** ** Exceptions and outcomes *)

Inductive exn : Type :=
| ValueError
| KeyError
| TypeError.

Inductive outcome (A : Type) : Type :=
| Ok (a : A)
| Raise (e : exn).
Arguments Ok {A} a.
Arguments Raise {A} e.

Definition bind {A B : Type} (c : outcome A) (k : A -> outcome B) : outcome B :=
  match c with
  | Ok a => k a
  | Raise e => Raise e
  end.

Notation "x <- c ;; k" := (bind c (fun x => k))
  (at level 100, c at next level, right associativity).

(** [try: body / except ValueError: handler], then [rest] with what the
    body bound. *)
Definition try_ValueError {A B : Type}
    (body : outcome A) (handler : outcome B) (rest : A -> outcome B) : outcome B :=
  match body with
  | Ok a => rest a
  | Raise ValueError => handler
  | Raise e => Raise e
  end.

Module Py.

(** *** Characters *)

Definition code (c : ascii) : Z := Z.of_N (N_of_ascii c).

Definition is_digit (c : ascii) : bool := (48 <=? code c) && (code c <=? 57).

Definition digit_val (c : ascii) : Z := code c - 48.

Definition digit_char (d : Z) : ascii := ascii_of_N (Z.to_N (48 + d)).

(** The characters [float] and [int] strip at both ends of a text: the
    six ASCII white-space characters, and the two white-space code points
    above 127 that fit a byte (NEL and the no-break space), which the
    conversion first turns into a blank. *)
Definition is_space (c : ascii) : bool :=
  let n := code c in
  ((9 <=? n) && (n <=? 13)) || (n =? 32) || (n =? 133) || (n =? 160).

Definition lower (c : ascii) : ascii :=
  let n := code c in
  if (65 <=? n) && (n <=? 90) then ascii_of_N (Z.to_N (n + 32)) else c.

Fixpoint lstrip (s : list ascii) : list ascii :=
  match s with
  | c :: s' => if is_space c then lstrip s' else s
  | [] => []
  end.

Definition rstrip (s : list ascii) : list ascii := rev (lstrip (rev s)).

Definition strip (s : list ascii) : list ascii := rstrip (lstrip s).

(** The longest prefix of decimal digits, and what follows it. *)
Fixpoint span_digits (s : list ascii) : list ascii * list ascii :=
  match s with
  | c :: s' =>
      if is_digit c
      then let '(ds, r) := span_digits s' in (c :: ds, r)
      else ([], s)
  | [] => ([], [])
  end.

(** The number a run of decimal digits writes (0 for the empty run). *)
Definition nat_of_digits (ds : list ascii) : Z :=
  fold_left (fun acc c => 10 * acc + digit_val c) ds 0.

(** An optional sign: whether it is a minus, and the rest. *)
Definition split_sign (s : list ascii) : bool * list ascii :=
  match s with
  | "-"%char :: r => (true, r)
  | "+"%char :: r => (false, r)
  | _ => (false, s)
  end.

Definition split_sign_minus (s : list ascii) : bool * list ascii :=
  match s with
  | "-"%char :: r => (true, r)
  | _ => (false, s)
  end.

(** Underscores are digit separators: each stands between two digits.
    [strip_underscores prev s] removes them, or fails when one is
    misplaced; [prev] is the character before [s]. *)
Fixpoint strip_underscores (prev : option ascii) (s : list ascii) : option (list ascii) :=
  match s with
  | [] =>
      match prev with
      | Some "_"%char => None
      | _ => Some []
      end
  | "_"%char :: s' =>
      match prev with
      | Some p => if is_digit p then strip_underscores (Some "_"%char) s' else None
      | None => None
      end
  | c :: s' =>
      match prev with
      | Some "_"%char =>
          if is_digit c
          then option_map (cons c) (strip_underscores (Some c) s')
          else None
      | _ => option_map (cons c) (strip_underscores (Some c) s')
      end
  end.

(** *** Binary64 *)

Definition binary64 := spec_float.

Definition prec : Z := 53.
Definition emax : Z := 1024.

Definition fadd : binary64 -> binary64 -> binary64 := SFadd prec emax.
Definition fsub : binary64 -> binary64 -> binary64 := SFsub prec emax.
Definition fdiv : binary64 -> binary64 -> binary64 := SFdiv prec emax.
Definition fabs : binary64 -> binary64 := SFabs.
Definition flt : binary64 -> binary64 -> bool := SFltb.

Definition is_finite (x : binary64) : bool :=
  match x with
  | S754_zero _ | S754_finite _ _ _ => true
  | _ => false
  end.

(** The binary64 value nearest to [(-1)^neg * d * 10^e] (ties to even),
    as the correctly rounded decimal-to-binary conversion gives it. *)
Definition float_of_decimal (neg : bool) (d e : Z) : binary64 :=
  match d with
  | Zpos p =>
      if 0 <=? e
      then binary_normalize prec emax (cond_Zopp neg (d * 10 ^ e)) 0 neg
      else
        let '(q, e', l) := SFdiv_core_binary prec emax d 0 (10 ^ (- e)) 0 in
        binary_round_aux prec emax neg q e' l
  | _ => S754_zero neg
  end.

(** *** [float(text)] *)

Definition is_exp_mark (c : ascii) : bool := (code c =? 101) || (code c =? 69).

(** The exponent part after the mantissa, when it has a digit: its value
    and what follows; otherwise nothing is read. *)
Definition parse_exponent (s : list ascii) : Z * list ascii :=
  match s with
  | c :: r =>
      if is_exp_mark c then
        let '(eneg, r1) := split_sign r in
        let '(ds, r2) := span_digits r1 in
        match ds with
        | [] => (0, s)
        | _ :: _ => (cond_Zopp eneg (nat_of_digits ds), r2)
        end
      else (0, s)
  | [] => (0, [])
  end.

(** [digits [. digits] [exponent]] with at least one digit in the
    mantissa: the integer the digits write, the power of ten that scales
    it, and what follows the number. *)
Definition parse_decimal (s : list ascii) : option (Z * Z * list ascii) :=
  let '(ip, r1) := span_digits s in
  let '(fp, r2) :=
    match r1 with
    | "."%char :: r => span_digits r
    | _ => ([], r1)
    end in
  match ip ++ fp with
  | [] => None
  | ds =>
      let '(e, r3) := parse_exponent r2 in
      Some (nat_of_digits ds, e - Z.of_nat (length fp), r3)
  end.

(** [match_ci pat s]: [s] without its prefix [pat], letter case ignored
    ([pat] is in lower case). *)
Fixpoint match_ci (pat s : list ascii) : option (list ascii) :=
  match pat, s with
  | [], _ => Some s
  | p :: pat', c :: s' => if Ascii.eqb (lower c) p then match_ci pat' s' else None
  | _ :: _, [] => None
  end.

Definition parse_inf_or_nan (s : list ascii) : option (binary64 * list ascii) :=
  let '(neg, r) := split_sign s in
  match match_ci (list_ascii_of_string "inf") r with
  | Some r1 =>
      match match_ci (list_ascii_of_string "inity") r1 with
      | Some r2 => Some (S754_infinity neg, r2)
      | None => Some (S754_infinity neg, r1)
      end
  | None =>
      match match_ci (list_ascii_of_string "nan") r with
      | Some r1 => Some (S754_nan, r1)
      | None => None
      end
  end.

Definition float_of_string (s : string) : option binary64 :=
  match strip (list_ascii_of_string s) with
  | [] => None
  | t =>
      match strip_underscores None t with
      | None => None
      | Some u =>
          let '(neg, r) := split_sign u in
          match parse_decimal r with
          | Some (d, e, []) => Some (float_of_decimal neg d e)
          | Some (_, _, _ :: _) => None
          | None =>
              match parse_inf_or_nan u with
              | Some (x, []) => Some x
              | _ => None
              end
          end
      end
  end.

(** [float(s)] for a text [s]: the value, or [ValueError]. *)
Definition float (s : string) : outcome binary64 :=
  match float_of_string s with
  | Some x => Ok x
  | None => Raise ValueError
  end.

(** *** [int(text)] *)

(** Above this many digits the conversion of a text to an integer is
    refused. *)
Definition max_str_digits : Z := 4300.

Definition int_of_string (s : string) : option Z :=
  let '(neg, r) := split_sign (strip (list_ascii_of_string s)) in
  match strip_underscores None r with
  | Some (d :: ds) =>
      if forallb is_digit (d :: ds) && (Z.of_nat (length (d :: ds)) <=? max_str_digits)
      then Some (cond_Zopp neg (nat_of_digits (d :: ds)))
      else None
  | _ => None
  end.

(** [int(s)] for a text [s]: the value, or [ValueError]. *)
Definition int (s : string) : outcome Z :=
  match int_of_string s with
  | Some n => Ok n
  | None => Raise ValueError
  end.

(** *** Decimal output *)

Fixpoint digits_fuel (fuel : nat) (n : Z) (acc : list ascii) : list ascii :=
  match fuel with
  | O => acc
  | S f =>
      let acc' := digit_char (n mod 10) :: acc in
      if n <? 10 then acc' else digits_fuel f (n / 10) acc'
  end.

(** The decimal digits of [n >= 0], without leading zeros ("0" for 0);
    a number has no more decimal digits than bits. *)
Definition decimal_digits (n : Z) : list ascii :=
  digits_fuel (S (Z.to_nat (Z.log2 n))) n [].

Definition sign_text (neg : bool) : list ascii :=
  if neg then ["-"%char] else [].

(** [n / d] rounded to the nearest integer, ties to the even one. *)
Definition div_half_even (n d : Z) : Z :=
  let q := n / d in
  let r := n mod d in
  match 2 * r ?= d with
  | Lt => q
  | Gt => q + 1
  | Eq => if Z.even q then q else q + 1
  end.

(** The finite value [m * 2^e] as a fraction of two positive integers. *)
Definition ratio (m : positive) (e : Z) : Z * Z :=
  if 0 <=? e then (Zpos m * 2 ^ e, 1) else (Zpos m, 2 ^ (- e)).

(** [format(x, ".3f")]: the exact value rounded to three decimals. *)
Definition format_3f_chars (x : binary64) : list ascii :=
  match x with
  | S754_nan => list_ascii_of_string "nan"
  | S754_infinity neg => sign_text neg ++ list_ascii_of_string "inf"
  | S754_zero neg => sign_text neg ++ list_ascii_of_string "0.000"
  | S754_finite neg m e =>
      let '(num, den) := ratio m e in
      let n := div_half_even (1000 * num) den in
      sign_text neg ++ decimal_digits (n / 1000) ++
        ["."%char; digit_char (n / 100 mod 10); digit_char (n / 10 mod 10);
         digit_char (n mod 10)]
  end.

Definition format_3f (x : binary64) : string :=
  string_of_list_ascii (format_3f_chars x).

(** A text in fixed-point notation with exactly three decimals:
    an optional minus, one digit or more, a point, three digits. *)
Definition fixed3_unsigned (s : list ascii) : bool :=
  let '(ip, r) := span_digits s in
  match ip, r with
  | _ :: _, ["."%char; a; b; c] => is_digit a && is_digit b && is_digit c
  | _, _ => false
  end.

Definition fixed3_chars (s : list ascii) : bool :=
  fixed3_unsigned (snd (split_sign_minus s)).

Definition fixed3 (s : string) : bool := fixed3_chars (list_ascii_of_string s).

(** *** [str(x)] of a float: the shortest text that reads back as [x] *)

Definition ndigits10 (n : Z) : Z := Z.of_nat (length (decimal_digits n)).

(** The position [k] of the decimal point of [num / den > 0]:
    [10^(k-1) <= num / den < 10^k]. *)
Definition decimal_point (num den : Z) : Z :=
  let k := ndigits10 num - ndigits10 den in
  let reaches := if 0 <=? k then den * 10 ^ k <=? num else den <=? num * 10 ^ (- k) in
  if reaches then k + 1 else k.

(** [num / den] scaled by [10^s], as a fraction. *)
Definition scale10 (num den s : Z) : Z * Z :=
  if 0 <=? s then (num * 10 ^ s, den) else (num, den * 10 ^ (- s)).

(** The [n]-digit decimal for the positive finite [m * 2^e] whose point
    is at [k], when one reads back as the same float: of the two
    [n]-digit neighbours, the nearer that does (the even one at a tie).
    The result is the integer [c] of the decimal [c * 10^(k-n)]. *)
Definition candidate (m : positive) (e k n : Z) : option Z :=
  let '(num, den) := ratio m e in
  let '(a, b) := scale10 num den (n - k) in
  let lo := a / b in
  let r := a mod b in
  let back c := match float_of_decimal false c (k - n) with
                | S754_finite false m' e' => Pos.eqb m' m && (e' =? e)
                | _ => false
                end in
  match back lo, back (lo + 1) with
  | true, true =>
      match 2 * r ?= b with
      | Lt => Some lo
      | Gt => Some (lo + 1)
      | Eq => if Z.even lo then Some lo else Some (lo + 1)
      end
  | true, false => Some lo
  | false, true => Some (lo + 1)
  | false, false => None
  end.

(** Try [n], [n+1], ... digits; the 17 correctly rounded digits always
    read back as the same binary64. *)
Fixpoint shortest_from (fuel : nat) (m : positive) (e k n : Z) : Z * Z :=
  match fuel with
  | O =>
      let '(num, den) := ratio m e in
      let '(a, b) := scale10 num den (n - k) in
      (div_half_even a b, n)
  | S f =>
      match candidate m e k n with
      | Some c => (c, n)
      | None => shortest_from f m e k (n + 1)
      end
  end.

Fixpoint drop_trailing_zeros (ds : list ascii) : list ascii :=
  match ds with
  | [] => []
  | d :: ds' =>
      match drop_trailing_zeros ds' with
      | [] => if Ascii.eqb d "0"%char then [] else [d]
      | t => d :: t
      end
  end.

(** The shortest digits of the positive finite [m * 2^e] and the position
    of its decimal point before them: the value is [0.d1d2... * 10^decpt]. *)
Definition shortest_digits (m : positive) (e : Z) : list ascii * Z :=
  let '(num, den) := ratio m e in
  let k := decimal_point num den in
  let '(c, n) := shortest_from 16 m e k 1 in
  let ds := decimal_digits c in
  (drop_trailing_zeros ds, Z.of_nat (length ds) + (k - n)).

Definition zeros (n : Z) : list ascii := repeat "0"%char (Z.to_nat n).

(** The exponent of the scientific notation: a sign and two digits or more. *)
Definition exponent_text (x : Z) : list ascii :=
  (if x <? 0 then "-"%char else "+"%char) ::
  (if Z.abs x <? 10 then ["0"%char] else []) ++ decimal_digits (Z.abs x).

(** The text of [repr]: scientific notation below [1e-4] and from [1e16]
    on, else positional with a ".0" after an integral value. *)
Definition repr_digits (ds : list ascii) (decpt : Z) : list ascii :=
  if (decpt <=? -4) || (16 <? decpt) then
    match ds with
    | d :: [] => d :: "e"%char :: exponent_text (decpt - 1)
    | d :: rest => d :: "."%char :: rest ++ "e"%char :: exponent_text (decpt - 1)
    | [] => []
    end
  else if decpt <=? 0 then
    "0"%char :: "."%char :: zeros (- decpt) ++ ds
  else if decpt <? Z.of_nat (length ds) then
    firstn (Z.to_nat decpt) ds ++ "."%char :: skipn (Z.to_nat decpt) ds
  else
    ds ++ zeros (decpt - Z.of_nat (length ds)) ++ [ "."%char; "0"%char ].

Definition str_float_chars (x : binary64) : list ascii :=
  match x with
  | S754_nan => list_ascii_of_string "nan"
  | S754_infinity neg => sign_text neg ++ list_ascii_of_string "inf"
  | S754_zero neg => sign_text neg ++ list_ascii_of_string "0.0"
  | S754_finite neg m e =>
      let '(ds, decpt) := shortest_digits m e in
      sign_text neg ++ repr_digits ds decpt
  end.

(** [str(x)] for a float [x]. *)
Definition str (x : binary64) : string := string_of_list_ascii (str_float_chars x).

End Py.

(** ** The program *)

(** A bearing entry: the dictionary with the four keys [load_bearings]
    builds.  The part number is the text of the row, or [None] when the
    row is shorter than the header. *)
Record bearing : Type := {
  PartNumber : option string;
  ID : Py.binary64;
  OD : Py.binary64;
  Thickness : Py.binary64
}.

(** A row as [csv.DictReader] yields it: a dictionary from the column
    names of the header to the texts of the row, [None] for a column
    the row lacks. *)
Abbreviation csv_row := (gmap string (option string)).

(** The files the program can see: a regular file is given by the rows a
    [DictReader] reads from it. *)
Inductive node : Type :=
| RegularFile (rows : list csv_row)
| Directory.

Abbreviation filesystem := (gmap string node).

Definition isfile (fs : filesystem) (path : string) : bool :=
  match fs !! path with
  | Some (RegularFile _) => true
  | _ => false
  end.

(** [row[key]]. *)
Definition getitem (row : csv_row) (key : string) : outcome (option string) :=
  match row !! key with
  | Some v => Ok v
  | None => Raise KeyError
  end.

(** [float(v)] for a value of a row: [None] is not a number. *)
Definition float_of_value (v : option string) : outcome Py.binary64 :=
  match v with
  | Some s => Py.float s
  | None => Raise TypeError
  end.

(** The dictionary displayed in the body of the loop of [load_bearings];
    its four items are evaluated in order. *)
Definition bearing_of_row (row : csv_row) : outcome bearing :=
  pn <- getitem row "PartNumber" ;;
  v_id <- getitem row "ID" ;;
  b_id <- float_of_value v_id ;;
  v_od <- getitem row "OD" ;;
  b_od <- float_of_value v_od ;;
  v_th <- getitem row "Thickness" ;;
  b_th <- float_of_value v_th ;;
  Ok {| PartNumber := pn; ID := b_id; OD := b_od; Thickness := b_th |}.

(** [for row in reader: bearings_data.append({...})]. *)
Fixpoint read_rows (rows : list csv_row) (bearings_data : list bearing)
  : outcome (list bearing) :=
  match rows with
  | [] => Ok bearings_data
  | row :: rest =>
      b <- bearing_of_row row ;;
      read_rows rest (bearings_data ++ [b])
  end.

(** [csv.DictReader(open(csv_filename, ...))]: the rows of the file. *)
Definition reader (fs : filesystem) (csv_filename : string) : list csv_row :=
  match fs !! csv_filename with
  | Some (RegularFile rows) => rows
  | _ => []
  end.

Definition load_bearings (fs : filesystem) (csv_filename : string)
  : outcome (list bearing) :=
  let bearings_data := [] in
  if negb (isfile fs csv_filename) then Ok bearings_data
  else read_rows (reader fs csv_filename) bearings_data.

(** The literal [1e-6]. *)
Definition lit_1e_6 : Py.binary64 := Py.float_of_decimal false 1 (-6).

(** [abs(bearing['ID'] - inner_diameter) < 1e-6]. *)
Definition id_matches (b : bearing) (inner_diameter : Py.binary64) : bool :=
  Py.flt (Py.fabs (Py.fsub (ID b) inner_diameter)) lit_1e_6.

Fixpoint find_bearing_by_ID (bearings_data : list bearing)
    (inner_diameter : Py.binary64) : option bearing :=
  match bearings_data with
  | [] => None
  | b :: rest =>
      if id_matches b inner_diameter then Some b
      else find_bearing_by_ID rest inner_diameter
  end.

(** ** The window *)

(** The entry widgets the handlers read.  [entry_shaft_diameter] and
    [entry_roller_base_diameter] show the variables whose writes are
    traced; their text is the text of the variable. *)
Inductive entry : Type :=
| entry_shaft_diameter
| entry_num_drive_rollers
| entry_drive_roller_diameter
| entry_drive_roller_base_thickness
| entry_roller_base_diameter
| entry_ring_pin_diameter
| entry_cycloidal_pin_diameter
| entry_cycloidal_pin_height
| entry_tolerance
| entry_cycloidal_disc_thickness.

(** The [StringVar]s the handlers write, shown by the grey labels. *)
Inductive stringvar : Type :=
| bearing_thickness_var
| bearing_od_var
| part_number_shaft_var
| roller_base_bearing_thickness_var
| roller_base_bearing_od_var
| part_number_roller_base_var
| cycloidal_disc_id_var
| hole_drive_roller_var
| hole_cycloidal_pin_var
| eccentricity_var.

#[global] Instance entry_eq_dec : EqDecision entry.
Proof. solve_decision. Defined.

#[global] Instance stringvar_eq_dec : EqDecision stringvar.
Proof. solve_decision. Defined.

(** The state of the window: the text of every entry and of every
    variable. *)
Record gui : Type := {
  entry_text : entry -> string;
  var_text : stringvar -> string
}.

(** [e.get()] of an entry. *)
Definition get (e : entry) (st : gui) : string := entry_text st e.

(** [v.get()] of a variable. *)
Definition var_get (v : stringvar) (st : gui) : string := var_text st v.

(** [v.set(value)]; none of the variables written by the handlers is
    traced, so a write runs no handler. *)
Definition var_set (v : stringvar) (value : string) (st : gui) : gui :=
  {| entry_text := entry_text st;
     var_text := fun w => if decide (w = v) then value else var_text st w |}.

(** The text Tk stores for a part number: a value that is not a text is
    stored as its [str]. *)
Definition text_of_value (v : option string) : string :=
  match v with
  | Some s => s
  | None => "None"
  end.

Section Handlers.

(** The catalog loaded at start-up, read by both trace handlers. *)
Variable bearings_list : list bearing.

Definition on_shaft_diameter_change (st : gui) : outcome gui :=
  try_ValueError (Py.float (get entry_shaft_diameter st))
    (Ok st)
    (fun sd =>
       match find_bearing_by_ID bearings_list sd with
       | Some found_bearing =>
           let st := var_set bearing_thickness_var (Py.str (Thickness found_bearing)) st in
           let st := var_set bearing_od_var (Py.str (OD found_bearing)) st in
           let st := var_set part_number_shaft_var (text_of_value (PartNumber found_bearing)) st in
           let st := var_set cycloidal_disc_id_var (Py.str (OD found_bearing)) st in
           Ok st
       | None => Ok st
       end).

Definition on_roller_base_diameter_change (st : gui) : outcome gui :=
  try_ValueError (Py.float (get entry_roller_base_diameter st))
    (Ok st)
    (fun rbd =>
       match find_bearing_by_ID bearings_list rbd with
       | Some found_bearing =>
           let st := var_set roller_base_bearing_thickness_var (Py.str (Thickness found_bearing)) st in
           let st := var_set roller_base_bearing_od_var (Py.str (OD found_bearing)) st in
           let st := var_set part_number_roller_base_var (text_of_value (PartNumber found_bearing)) st in
           Ok st
       | None => Ok st
       end).

End Handlers.

(** The eleven names bound in the [try] block of
    [calculate_cycloidal_params]. *)
Record inputs : Type := {
  shaft_diam : Py.binary64;
  num_drive_rollers : Z;
  drive_roller_diam : Py.binary64;
  drive_roller_base_thickness : Py.binary64;
  roller_base_diam : Py.binary64;
  ring_pin_diam : Py.binary64;
  cycloidal_pin_diam : Py.binary64;
  cycloidal_pin_height : Py.binary64;
  tolerance_val : Py.binary64;
  cycloidal_disc_id : Py.binary64;
  cycloidal_disc_thickness : Py.binary64
}.

(** The body of the [try] block: eleven conversions in order. *)
Definition read_inputs (st : gui) : outcome inputs :=
  a <- Py.float (get entry_shaft_diameter st) ;;
  b <- Py.int (get entry_num_drive_rollers st) ;;
  c <- Py.float (get entry_drive_roller_diameter st) ;;
  d <- Py.float (get entry_drive_roller_base_thickness st) ;;
  e <- Py.float (get entry_roller_base_diameter st) ;;
  f <- Py.float (get entry_ring_pin_diameter st) ;;
  g <- Py.float (get entry_cycloidal_pin_diameter st) ;;
  h <- Py.float (get entry_cycloidal_pin_height st) ;;
  i <- Py.float (get entry_tolerance st) ;;
  j <- Py.float (var_get cycloidal_disc_id_var st) ;;
  k <- Py.float (get entry_cycloidal_disc_thickness st) ;;
  Ok {| shaft_diam := a; num_drive_rollers := b; drive_roller_diam := c;
        drive_roller_base_thickness := d; roller_base_diam := e;
        ring_pin_diam := f; cycloidal_pin_diam := g;
        cycloidal_pin_height := h; tolerance_val := i;
        cycloidal_disc_id := j; cycloidal_disc_thickness := k |}.

(** The literals [0.2] and [2.0]. *)
Definition lit_0_2 : Py.binary64 := Py.float_of_decimal false 2 (-1).
Definition lit_2_0 : Py.binary64 := Py.float_of_decimal false 20 (-1).

(** [drive_roller_diam + 0.2 - tolerance_val]. *)
Definition drive_roller_hole_diam (i : inputs) : Py.binary64 :=
  Py.fsub (Py.fadd (drive_roller_diam i) lit_0_2) (tolerance_val i).

(** [cycloidal_pin_diam + 0.2 - tolerance_val]. *)
Definition cycloidal_pin_hole_diam (i : inputs) : Py.binary64 :=
  Py.fsub (Py.fadd (cycloidal_pin_diam i) lit_0_2) (tolerance_val i).

(** [(ring_pin_diam - cycloidal_pin_diam) / 2.0]. *)
Definition eccentricity_value (i : inputs) : Py.binary64 :=
  Py.fdiv (Py.fsub (ring_pin_diam i) (cycloidal_pin_diam i)) lit_2_0.

Definition calculate_cycloidal_params (st : gui) : outcome gui :=
  try_ValueError (read_inputs st)
    (Ok st)
    (fun i =>
       let st := var_set hole_drive_roller_var (Py.format_3f (drive_roller_hole_diam i)) st in
       let st := var_set hole_cycloidal_pin_var (Py.format_3f (cycloidal_pin_hole_diam i)) st in
       let st := var_set eccentricity_var (Py.format_3f (eccentricity_value i)) st in
       Ok st).

(** The two traced variables and the handler each write runs
    ([trace_add("write", ...)]). *)
Inductive traced_var : Type :=
| shaft_diameter_var
| roller_base_diameter_var.

(** The entry that shows a traced variable. *)
Definition traced_entry (v : traced_var) : entry :=
  match v with
  | shaft_diameter_var => entry_shaft_diameter
  | roller_base_diameter_var => entry_roller_base_diameter
  end.

Definition trace_write (bearings_list : list bearing) (v : traced_var)
  : gui -> outcome gui :=
  match v with
  | shaft_diameter_var => on_shaft_diameter_change bearings_list
  | roller_base_diameter_var => on_roller_base_diameter_change bearings_list
  end.

(** ** Vocabulary of the properties *)

(** All eleven required fields parse, to the values [i]. *)
Definition parsed (st : gui) (i : inputs) : Prop :=
  Py.float (get entry_shaft_diameter st) = Ok (shaft_diam i) /\
  Py.int (get entry_num_drive_rollers st) = Ok (num_drive_rollers i) /\
  Py.float (get entry_drive_roller_diameter st) = Ok (drive_roller_diam i) /\
  Py.float (get entry_drive_roller_base_thickness st) = Ok (drive_roller_base_thickness i) /\
  Py.float (get entry_roller_base_diameter st) = Ok (roller_base_diam i) /\
  Py.float (get entry_ring_pin_diameter st) = Ok (ring_pin_diam i) /\
  Py.float (get entry_cycloidal_pin_diameter st) = Ok (cycloidal_pin_diam i) /\
  Py.float (get entry_cycloidal_pin_height st) = Ok (cycloidal_pin_height i) /\
  Py.float (get entry_tolerance st) = Ok (tolerance_val i) /\
  Py.float (var_get cycloidal_disc_id_var st) = Ok (cycloidal_disc_id i) /\
  Py.float (get entry_cycloidal_disc_thickness st) = Ok (cycloidal_disc_thickness i).

(** One of the eleven required fields does not parse as its type. *)
Definition some_field_fails (st : gui) : Prop :=
  Py.float (get entry_shaft_diameter st) = Raise ValueError \/
  Py.int (get entry_num_drive_rollers st) = Raise ValueError \/
  Py.float (get entry_drive_roller_diameter st) = Raise ValueError \/
  Py.float (get entry_drive_roller_base_thickness st) = Raise ValueError \/
  Py.float (get entry_roller_base_diameter st) = Raise ValueError \/
  Py.float (get entry_ring_pin_diameter st) = Raise ValueError \/
  Py.float (get entry_cycloidal_pin_diameter st) = Raise ValueError \/
  Py.float (get entry_cycloidal_pin_height st) = Raise ValueError \/
  Py.float (get entry_tolerance st) = Raise ValueError \/
  Py.float (var_get cycloidal_disc_id_var st) = Raise ValueError \/
  Py.float (get entry_cycloidal_disc_thickness st) = Raise ValueError.

(** The three variables the full calculation writes. *)
Definition is_output (v : stringvar) : bool :=
  match v with
  | hole_drive_roller_var | hole_cycloidal_pin_var | eccentricity_var => true
  | _ => false
  end.

(** The four entries the specification lists as required but unused. *)
Definition is_dead_entry (e : entry) : bool :=
  match e with
  | entry_num_drive_rollers | entry_drive_roller_base_thickness
  | entry_cycloidal_pin_height | entry_cycloidal_disc_thickness => true
  | _ => false
  end.

(** The four entries the formulas read. *)
Definition is_consumed_entry (e : entry) : bool :=
  match e with
  | entry_drive_roller_diameter | entry_cycloidal_pin_diameter
  | entry_ring_pin_diameter | entry_tolerance => true
  | _ => false
  end.

(** The lookup misses: the text is not a number, or no bearing of the
    catalog matches the number. *)
Definition lookup_misses (bearings_list : list bearing) (v : traced_var) (st : gui) : Prop :=
  Py.float (get (traced_entry v) st) = Raise ValueError \/
  exists x, Py.float (get (traced_entry v) st) = Ok x /\
            find_bearing_by_ID bearings_list x = None.

Definition numeric_columns : list string := ["ID"; "OD"; "Thickness"].

(** The row has a text that is not a number in one of the three numeric
    columns. *)
Definition non_numeric_field (row : csv_row) : Prop :=
  exists key s, In key numeric_columns /\ row !! key = Some (Some s) /\
                Py.float_of_string s = None.

(** The row has a text in each of the four columns of the catalog. *)
Definition complete_row (row : csv_row) : Prop :=
  forall key, In key ("PartNumber" :: numeric_columns) ->
              exists s, row !! key = Some (Some s).

(** ** Example data *)

Definition make_row (pn b_id b_od b_th : string) : csv_row :=
  <["PartNumber" := Some pn]> (<["ID" := Some b_id]> (<["OD" := Some b_od]>
    (<["Thickness" := Some b_th]> ∅))).

Definition make_gui (entries : entry -> string) (vars : stringvar -> string) : gui :=
  {| entry_text := entries; var_text := vars |}.

(** The catalog of the specification: one row [B1, 10.0, 22.0, 6.0]. *)
Definition fs_B1 : filesystem :=
  <["bearing.csv" := RegularFile [make_row "B1" "10.0" "22.0" "6.0"]]> ∅.

Definition bearing_B1 : bearing :=
  {| PartNumber := Some "B1";
     ID := Py.float_of_decimal false 100 (-1);
     OD := Py.float_of_decimal false 220 (-1);
     Thickness := Py.float_of_decimal false 60 (-1) |}.

(** A window after the shaft diameter 10.0 was typed and matched. *)
Definition gui_example : gui :=
  make_gui
    (fun e => match e with
              | entry_shaft_diameter => "10.0"
              | entry_num_drive_rollers => "8"
              | entry_drive_roller_diameter => "6.0"
              | entry_drive_roller_base_thickness => "4.0"
              | entry_roller_base_diameter => "40.0"
              | entry_ring_pin_diameter => "8.0"
              | entry_cycloidal_pin_diameter => "6.0"
              | entry_cycloidal_pin_height => "12.0"
              | entry_tolerance => "0.05"
              | entry_cycloidal_disc_thickness => "5.0"
              end)
    (fun v => match v with
              | bearing_thickness_var => "6.0"
              | bearing_od_var => "22.0"
              | part_number_shaft_var => "B1"
              | cycloidal_disc_id_var => "22.0"
              | _ => ""
              end).

Definition inputs_example : inputs :=
  {| shaft_diam := Py.float_of_decimal false 100 (-1);
     num_drive_rollers := 8;
     drive_roller_diam := Py.float_of_decimal false 60 (-1);
     drive_roller_base_thickness := Py.float_of_decimal false 40 (-1);
     roller_base_diam := Py.float_of_decimal false 400 (-1);
     ring_pin_diam := Py.float_of_decimal false 80 (-1);
     cycloidal_pin_diam := Py.float_of_decimal false 60 (-1);
     cycloidal_pin_height := Py.float_of_decimal false 120 (-1);
     tolerance_val := Py.float_of_decimal false 5 (-2);
     cycloidal_disc_id := Py.float_of_decimal false 220 (-1);
     cycloidal_disc_thickness := Py.float_of_decimal false 50 (-1) |}.

(** [set_entry e text st]: the user types [text] in the entry [e]. *)
Definition set_entry (e : entry) (text : string) (st : gui) : gui :=
  {| entry_text := fun e' => if decide (e' = e) then text else entry_text st e';
     var_text := var_text st |}.

(** The example window with other texts in the four unused entries. *)
Definition gui_other_dead : gui :=
  set_entry entry_num_drive_rollers "12"
    (set_entry entry_drive_roller_base_thickness "3.5"
      (set_entry entry_cycloidal_pin_height "1e2"
        (set_entry entry_cycloidal_disc_thickness "7" gui_example))).

Definition inputs_other_dead : inputs :=
  {| shaft_diam := shaft_diam inputs_example;
     num_drive_rollers := 12;
     drive_roller_diam := drive_roller_diam inputs_example;
     drive_roller_base_thickness := Py.float_of_decimal false 35 (-1);
     roller_base_diam := roller_base_diam inputs_example;
     ring_pin_diam := ring_pin_diam inputs_example;
     cycloidal_pin_diam := cycloidal_pin_diam inputs_example;
     cycloidal_pin_height := Py.float_of_decimal false 1 2;
     tolerance_val := tolerance_val inputs_example;
     cycloidal_disc_id := cycloidal_disc_id inputs_example;
     cycloidal_disc_thickness := Py.float_of_decimal false 7 0 |}.

(** The example window with another shaft, roller base and disc diameter,
    and other texts in the variables. *)
Definition gui_other_unused : gui :=
  make_gui
    (fun e => match e with
              | entry_shaft_diameter => "17"
              | entry_roller_base_diameter => "-3.25"
              | entry_num_drive_rollers => "12"
              | _ => get e gui_example
              end)
    (fun v => match v with
              | cycloidal_disc_id_var => "35.0"
              | _ => "stale"
              end).

Definition inputs_other_unused : inputs :=
  {| shaft_diam := Py.float_of_decimal false 17 0;
     num_drive_rollers := 12;
     drive_roller_diam := drive_roller_diam inputs_example;
     drive_roller_base_thickness := drive_roller_base_thickness inputs_example;
     roller_base_diam := Py.float_of_decimal true 325 (-2);
     ring_pin_diam := ring_pin_diam inputs_example;
     cycloidal_pin_diam := cycloidal_pin_diam inputs_example;
     cycloidal_pin_height := cycloidal_pin_height inputs_example;
     tolerance_val := tolerance_val inputs_example;
     cycloidal_disc_id := Py.float_of_decimal false 350 (-1);
     cycloidal_disc_thickness := cycloidal_disc_thickness inputs_example |}.

(** A catalog file whose only row has the inner diameter "inf". *)
Definition fs_inf : filesystem :=
  <["bearing.csv" := RegularFile [make_row "B9" "inf" "22.0" "6.0"]]> ∅.

Definition bearing_inf : bearing :=
  {| PartNumber := Some "B9";
     ID := S754_infinity false;
     OD := Py.float_of_decimal false 220 (-1);
     Thickness := Py.float_of_decimal false 60 (-1) |}.

(** A catalog file whose second row has a thickness that is no number. *)
Definition fs_bad_row : filesystem :=
  <["bearing.csv" := RegularFile [make_row "B1" "10.0" "22.0" "6.0";
                                  make_row "B2" "12.0" "28.0" "thick"]]> ∅.

(** ** The main loop *)

(** What the user does in the window: change the text of an entry, or
    press the button "Calculate".  The grey labels cannot be edited. *)
Inductive event : Type :=
| Edit (e : entry) (text : string)
| Calculate.

(** The variable an entry shows ([textvariable=...]), when it has one. *)
Definition textvariable (e : entry) : option traced_var :=
  match e with
  | entry_shaft_diameter => Some shaft_diameter_var
  | entry_roller_base_diameter => Some roller_base_diameter_var
  | _ => None
  end.

(** The callback an event runs: an edit writes the variable of the entry
    and so runs its trace; the button runs its command. *)
Definition dispatch (bearings_list : list bearing) (ev : event) (st : gui)
  : outcome gui :=
  match ev with
  | Edit e text =>
      let st := set_entry e text st in
      match textvariable e with
      | Some v => trace_write bearings_list v st
      | None => Ok st
      end
  | Calculate => calculate_cycloidal_params st
  end.

(** The edit of an event alone, without its callback. *)
Definition set_entry_of_event (ev : event) (st : gui) : gui :=
  match ev with
  | Edit e text => set_entry e text st
  | Calculate => st
  end.

(** One turn of [root.mainloop()].  Tk reports an exception of a callback
    and goes on; the callbacks write only after their last conversion, so
    the state at an exception is the state before the callback. *)
Definition step (bearings_list : list bearing) (st : gui) (ev : event) : gui :=
  match dispatch bearings_list ev st with
  | Ok st' => st'
  | Raise _ => set_entry_of_event ev st
  end.

(** The window when the main loop starts: every entry and every variable
    is empty. *)
Definition initial : gui := make_gui (fun _ => "") (fun _ => "").

Definition mainloop (bearings_list : list bearing) (events : list event) : gui :=
  fold_left (step bearings_list) events initial.

(** The module from its first statement: the catalog is loaded from
    "bearing.csv", then the window is built and the main loop runs. *)
Definition program (fs : filesystem) (events : list event) : outcome gui :=
  bearings_list <- load_bearings fs "bearing.csv" ;;
  Ok (mainloop bearings_list events).

(** ** Vocabulary of the further properties *)

(** The bearing [b] is what the loop of [load_bearings] builds from the
    row: its part number is the value of the row, its numbers are the
    values of the texts of the row. *)
Definition loads_as (row : csv_row) (b : bearing) : Prop :=
  row !! "PartNumber" = Some (PartNumber b) /\
  (exists s, row !! "ID" = Some (Some s) /\ Py.float_of_string s = Some (ID b)) /\
  (exists s, row !! "OD" = Some (Some s) /\ Py.float_of_string s = Some (OD b)) /\
  (exists s, row !! "Thickness" = Some (Some s) /\
             Py.float_of_string s = Some (Thickness b)).

(** The row lacks one of the four columns, or is too short to have a
    text in one of the three numeric columns. *)
Definition malformed_row (row : csv_row) : Prop :=
  (exists key, In key ("PartNumber" :: numeric_columns) /\ row !! key = None) \/
  (exists key, In key numeric_columns /\ row !! key = Some None).

(** The three variables show the thickness, the outer diameter and the
    part number of one bearing of the catalog. *)
Definition shows_bearing (bearings_list : list bearing)
    (thickness od part_number : stringvar) (st : gui) : Prop :=
  exists b, In b bearings_list /\
            var_get thickness st = Py.str (Thickness b) /\
            var_get od st = Py.str (OD b) /\
            var_get part_number st = text_of_value (PartNumber b).

(** The three variables are empty. *)
Definition shows_nothing (thickness od part_number : stringvar) (st : gui) : Prop :=
  var_get thickness st = "" /\ var_get od st = "" /\ var_get part_number st = "".

(** The event is no edit of the shaft diameter to a number that a
    bearing of the catalog matches. *)
Definition no_shaft_match (bearings_list : list bearing) (ev : event) : Prop :=
  match ev with
  | Edit entry_shaft_diameter text =>
      forall x, Py.float text = Ok x -> find_bearing_by_ID bearings_list x = None
  | _ => True
  end.

(** Further example data. *)

(** A row of a file whose header has no column PartNumber. *)
Definition row_without_part_number : csv_row :=
  <["ID" := Some "10.0"]> (<["OD" := Some "22.0"]> (<["Thickness" := Some "6.0"]> ∅)).

Definition bearing_B2 : bearing :=
  {| PartNumber := Some "B2";
     ID := Py.float_of_decimal false 120 (-1);
     OD := Py.float_of_decimal false 280 (-1);
     Thickness := Py.float_of_decimal false 80 (-1) |}.

(** A session: a shaft that matches B1, a roller base that matches B2,
    the other fields, the button, then a shaft that matches nothing. *)
Definition session : list event :=
  [Edit entry_shaft_diameter "1"; Edit entry_shaft_diameter "10";
   Edit entry_roller_base_diameter "12.0";
   Edit entry_num_drive_rollers "8"; Edit entry_drive_roller_diameter "6.0";
   Edit entry_drive_roller_base_thickness "4"; Edit entry_ring_pin_diameter "8.0";
   Edit entry_cycloidal_pin_diameter "6.0"; Edit entry_cycloidal_pin_height "12";
   Edit entry_tolerance "0.05"; Edit entry_cycloidal_disc_thickness "5";
   Calculate; Edit entry_shaft_diameter "10."; Edit entry_shaft_diameter "10.5"].

(** The same session without an edit of the shaft diameter that matches. *)
Definition session_without_match : list event :=
  [Edit entry_shaft_diameter "1"; Edit entry_shaft_diameter "11";
   Edit entry_roller_base_diameter "12.0";
   Edit entry_num_drive_rollers "8"; Edit entry_drive_roller_diameter "6.0";
   Edit entry_drive_roller_base_thickness "4"; Edit entry_ring_pin_diameter "8.0";
   Edit entry_cycloidal_pin_diameter "6.0"; Edit entry_cycloidal_pin_height "12";
   Edit entry_tolerance "0.05"; Edit entry_cycloidal_disc_thickness "5";
   Calculate].

(** ** Properties of the built-ins *)

Module PyFacts.
Import Py.

Lemma is_digit_digit_char (d : Z) :
  0 <= d < 10 -> is_digit (digit_char d) = true.
Proof.
  intros Hd.
  assert (Hcases : d = 0 \/ d = 1 \/ d = 2 \/ d = 3 \/ d = 4 \/ d = 5 \/
                   d = 6 \/ d = 7 \/ d = 8 \/ d = 9) by lia.
  repeat (destruct Hcases as [-> | Hcases]; [reflexivity |]).
  subst d. reflexivity.
Qed.

Lemma is_digit_mod10 (n : Z) : is_digit (digit_char (n mod 10)) = true.
Proof. apply is_digit_digit_char. apply Z.mod_pos_bound. lia. Qed.

Lemma digits_fuel_all_digits (fuel : nat) :
  forall n acc,
    forallb is_digit acc = true ->
    forallb is_digit (digits_fuel fuel n acc) = true.
Proof.
  induction fuel as [| fuel IH]; intros n acc Hacc; simpl.
  - exact Hacc.
  - assert (Hacc' : forallb is_digit (digit_char (n mod 10) :: acc) = true).
    { simpl. rewrite is_digit_mod10. exact Hacc. }
    destruct (n <? 10).
    + exact Hacc'.
    + apply IH. exact Hacc'.
Qed.

Lemma digits_fuel_nonempty (fuel : nat) :
  forall n acc, acc <> [] \/ fuel <> O -> digits_fuel fuel n acc <> [].
Proof.
  induction fuel as [| fuel IH]; intros n acc H; simpl.
  - destruct H as [H | H]; [exact H | congruence].
  - destruct (n <? 10).
    + discriminate.
    + apply IH. left. discriminate.
Qed.

Lemma decimal_digits_all_digits (n : Z) :
  forallb is_digit (decimal_digits n) = true.
Proof. unfold decimal_digits. apply digits_fuel_all_digits. reflexivity. Qed.

Lemma decimal_digits_nonempty (n : Z) : decimal_digits n <> [].
Proof. unfold decimal_digits. apply digits_fuel_nonempty. right. discriminate. Qed.

(** A run of digits followed by a character that is not one is read
    whole by [span_digits]. *)
Lemma span_digits_run (ds : list ascii) (c : ascii) (r : list ascii) :
  forallb is_digit ds = true ->
  is_digit c = false ->
  span_digits (ds ++ c :: r) = (ds, c :: r).
Proof.
  intros Hds Hc. induction ds as [| d ds IH]; simpl.
  - rewrite Hc. reflexivity.
  - simpl in Hds. apply andb_prop in Hds as [Hd Hds].
    rewrite Hd, (IH Hds). reflexivity.
Qed.

Lemma split_sign_minus_digit (d : ascii) (r : list ascii) :
  is_digit d = true -> split_sign_minus (d :: r) = (false, d :: r).
Proof.
  intros Hd. unfold split_sign_minus.
  destruct d as [[] [] [] [] [] [] [] []]; try reflexivity; discriminate Hd.
Qed.

(** The digits, the point and the three decimals of a fixed-point text. *)
Lemma fixed3_unsigned_digits (q a b c : Z) :
  fixed3_unsigned
    (decimal_digits q ++
       ["."%char; digit_char (a mod 10); digit_char (b mod 10); digit_char (c mod 10)])
  = true.
Proof.
  unfold fixed3_unsigned.
  pose proof (decimal_digits_nonempty q) as Hne.
  rewrite (span_digits_run _ "."%char _ (decimal_digits_all_digits q) eq_refl).
  destruct (decimal_digits q) as [| d ds]; [congruence |].
  rewrite !is_digit_mod10. reflexivity.
Qed.

Lemma fixed3_chars_digits (q a b c : Z) :
  fixed3_chars
    (decimal_digits q ++
       ["."%char; digit_char (a mod 10); digit_char (b mod 10); digit_char (c mod 10)])
  = true.
Proof.
  unfold fixed3_chars.
  pose proof (decimal_digits_nonempty q) as Hne.
  pose proof (decimal_digits_all_digits q) as Hall.
  pose proof (fixed3_unsigned_digits q a b c) as Hfix.
  destruct (decimal_digits q) as [| d ds]; [congruence |].
  assert (Hd : is_digit d = true) by (simpl in Hall; apply andb_prop in Hall; tauto).
  change ((d :: ds) ++ ?l) with (d :: (ds ++ l)) in *.
  rewrite (split_sign_minus_digit d _ Hd). exact Hfix.
Qed.

(** [format(x, ".3f")] of a finite float is a fixed-point text with
    exactly three decimals. *)
Lemma format_3f_fixed3 (x : binary64) :
  is_finite x = true -> fixed3 (format_3f x) = true.
Proof.
  intros Hfin. unfold fixed3, format_3f.
  rewrite list_ascii_of_string_of_list_ascii.
  destruct x as [s | s | | s m e]; try discriminate Hfin.
  - destruct s; reflexivity.
  - unfold format_3f_chars. destruct (ratio m e) as [num den].
    set (n := div_half_even (1000 * num) den).
    destruct s; simpl sign_text.
    + exact (fixed3_unsigned_digits (n / 1000) (n / 100) (n / 10) n).
    + exact (fixed3_chars_digits (n / 1000) (n / 100) (n / 10) n).
Qed.

(** A finite float minus itself is [+0.0], which is below any positive
    float. *)
Lemma fsub_diag (x : binary64) :
  is_finite x = true -> fsub x x = S754_zero false.
Proof.
  intros Hfin. destruct x as [s | s | | s m e]; try discriminate Hfin.
  - destruct s; reflexivity.
  - unfold fsub, SFsub, shl_align.
    rewrite !Z.min_id, !Z.sub_diag. reflexivity.
Qed.

(** The conversions and the two output formats on familiar values. *)
Example float_examples :
  map float_of_string ["10.0"; " 1_0.5 "; "-.5e1"; "1e400"; "-Infinity"; "nan"]
  = map Some [float_of_decimal false 10 0; float_of_decimal false 105 (-1);
              float_of_decimal true 5 0; S754_infinity false;
              S754_infinity true; S754_nan]
  /\ map float_of_string [""; "."; "1e"; "1__0"; "0x10"; "1 2"; "ten"]
     = [None; None; None; None; None; None; None].
Proof. split; vm_compute; reflexivity. Qed.

Example int_examples :
  map int_of_string [" 8 "; "-12"; "1_000"; "8.0"; "1e3"; ""; "+"]
  = [Some 8; Some (-12); Some 1000; None; None; None; None].
Proof. vm_compute. reflexivity. Qed.

Example str_examples :
  map str [float_of_decimal false 6 0; float_of_decimal false 1 (-1);
           fadd (float_of_decimal false 1 (-1)) (float_of_decimal false 2 (-1));
           float_of_decimal false 1 16; float_of_decimal true 15 (-6);
           S754_zero true; S754_infinity true]
  = ["6.0"; "0.1"; "0.30000000000000004"; "1e+16"; "-1.5e-05"; "-0.0"; "-inf"].
Proof. vm_compute. reflexivity. Qed.

Example format_3f_examples :
  map format_3f [float_of_decimal false 615 (-2); float_of_decimal false 2675 (-3);
                 float_of_decimal false 5 (-4); float_of_decimal true 1 (-4);
                 float_of_decimal false 1 23; S754_nan]
  = ["6.150"; "2.675"; "0.001"; "-0.000"; "99999999999999991611392.000"; "nan"].
Proof. vm_compute. reflexivity. Qed.

End PyFacts.

(** ** Properties of the program *)

Lemma float_raises (s : string) (e : exn) :
  Py.float s = Raise e -> e = ValueError.
Proof. unfold Py.float. destruct (Py.float_of_string s); congruence. Qed.

Lemma int_raises (s : string) (e : exn) :
  Py.int s = Raise e -> e = ValueError.
Proof. unfold Py.int. destruct (Py.int_of_string s); congruence. Qed.

(** One conversion of the [try] block: case on its outcome, and close
    the branch where it raised with [tac]. *)
Ltac convert c tac :=
  let x := fresh "x" in
  let err := fresh "err" in
  let E := fresh "E" in
  destruct c as [x | err] eqn:E; simpl; [ | tac ].

(** The branch where a conversion raised: the block is not [Ok], and the
    field did not parse. *)
Ltac raised :=
  split; [ discriminate | intros H; decompose [and] H; discriminate ].

(** The branch where a conversion raised: the exception is its own. *)
Ltac by_conv :=
  intros H; injection H as <-;
  first [ eapply float_raises; eassumption | eapply int_raises; eassumption ].

(** The [try] block binds its eleven names exactly when all fields parse. *)
Lemma read_inputs_parsed (st : gui) (i : inputs) :
  read_inputs st = Ok i <-> parsed st i.
Proof.
  unfold read_inputs, parsed, bind.
  convert (Py.float (get entry_shaft_diameter st)) raised.
  convert (Py.int (get entry_num_drive_rollers st)) raised.
  convert (Py.float (get entry_drive_roller_diameter st)) raised.
  convert (Py.float (get entry_drive_roller_base_thickness st)) raised.
  convert (Py.float (get entry_roller_base_diameter st)) raised.
  convert (Py.float (get entry_ring_pin_diameter st)) raised.
  convert (Py.float (get entry_cycloidal_pin_diameter st)) raised.
  convert (Py.float (get entry_cycloidal_pin_height st)) raised.
  convert (Py.float (get entry_tolerance st)) raised.
  convert (Py.float (var_get cycloidal_disc_id_var st)) raised.
  convert (Py.float (get entry_cycloidal_disc_thickness st)) raised.
  split.
  - intros H. injection H as <-. simpl. repeat split; reflexivity.
  - intros H. decompose [and] H. destruct i. simpl in *. congruence.
Qed.

(** The only exception the [try] block raises is [ValueError]. *)
Lemma read_inputs_raises (st : gui) (e : exn) :
  read_inputs st = Raise e -> e = ValueError.
Proof.
  unfold read_inputs, bind.
  convert (Py.float (get entry_shaft_diameter st)) by_conv.
  convert (Py.int (get entry_num_drive_rollers st)) by_conv.
  convert (Py.float (get entry_drive_roller_diameter st)) by_conv.
  convert (Py.float (get entry_drive_roller_base_thickness st)) by_conv.
  convert (Py.float (get entry_roller_base_diameter st)) by_conv.
  convert (Py.float (get entry_ring_pin_diameter st)) by_conv.
  convert (Py.float (get entry_cycloidal_pin_diameter st)) by_conv.
  convert (Py.float (get entry_cycloidal_pin_height st)) by_conv.
  convert (Py.float (get entry_tolerance st)) by_conv.
  convert (Py.float (var_get cycloidal_disc_id_var st)) by_conv.
  convert (Py.float (get entry_cycloidal_disc_thickness st)) by_conv.
  discriminate.
Qed.

Lemma read_inputs_fails (st : gui) :
  some_field_fails st -> read_inputs st = Raise ValueError.
Proof.
  intros Hfail.
  destruct (read_inputs st) as [i | e] eqn:Hread.
  - exfalso. apply read_inputs_parsed in Hread.
    unfold parsed in Hread. decompose [and] Hread.
    unfold some_field_fails in Hfail. decompose [or] Hfail; congruence.
  - f_equal. exact (read_inputs_raises st e Hread).
Qed.

(** What the full calculation does once the fields have parsed. *)
Lemma calculate_parsed (st : gui) (i : inputs) :
  parsed st i ->
  calculate_cycloidal_params st =
    Ok (var_set eccentricity_var (Py.format_3f (eccentricity_value i))
         (var_set hole_cycloidal_pin_var (Py.format_3f (cycloidal_pin_hole_diam i))
           (var_set hole_drive_roller_var (Py.format_3f (drive_roller_hole_diam i)) st))).
Proof.
  intros Hp. apply read_inputs_parsed in Hp.
  unfold calculate_cycloidal_params, try_ValueError. rewrite Hp. reflexivity.
Qed.

(** The consumed values of two parsed input sets agree when the texts of
    the four consumed entries do. *)
Lemma consumed_values_agree (st1 st2 : gui) (i1 i2 : inputs) :
  parsed st1 i1 -> parsed st2 i2 ->
  (forall e, is_consumed_entry e = true -> get e st1 = get e st2) ->
  drive_roller_diam i1 = drive_roller_diam i2 /\
  cycloidal_pin_diam i1 = cycloidal_pin_diam i2 /\
  ring_pin_diam i1 = ring_pin_diam i2 /\
  tolerance_val i1 = tolerance_val i2.
Proof.
  intros H1 H2 Hagree.
  unfold parsed in H1, H2. decompose [and] H1. decompose [and] H2.
  pose proof (Hagree entry_drive_roller_diameter eq_refl) as Ha.
  pose proof (Hagree entry_cycloidal_pin_diameter eq_refl) as Hb.
  pose proof (Hagree entry_ring_pin_diameter eq_refl) as Hc.
  pose proof (Hagree entry_tolerance eq_refl) as Hd.
  repeat split; congruence.
Qed.

Lemma outputs_of_consumed (i1 i2 : inputs) :
  drive_roller_diam i1 = drive_roller_diam i2 /\
  cycloidal_pin_diam i1 = cycloidal_pin_diam i2 /\
  ring_pin_diam i1 = ring_pin_diam i2 /\
  tolerance_val i1 = tolerance_val i2 ->
  drive_roller_hole_diam i1 = drive_roller_hole_diam i2 /\
  cycloidal_pin_hole_diam i1 = cycloidal_pin_hole_diam i2 /\
  eccentricity_value i1 = eccentricity_value i2.
Proof.
  intros (Ha & Hb & Hc & Hd).
  unfold drive_roller_hole_diam, cycloidal_pin_hole_diam, eccentricity_value.
  rewrite Ha, Hb, Hc, Hd. repeat split; reflexivity.
Qed.

(** *** The full calculation *)

(** C1. When any one of the eleven required fields does not parse as its
    type, [calculate_cycloidal_params] returns normally (no exception
    leaves it) and the state after the call is the state before it: no
    output is written. *)
Theorem calculate_aborts_silently (st : gui) :
  some_field_fails st ->
  calculate_cycloidal_params st = Ok st.
Proof.
  intros Hfail.
  unfold calculate_cycloidal_params, try_ValueError.
  rewrite (read_inputs_fails st Hfail). reflexivity.
Qed.

Lemma calculate_aborts_silently_witness :
  some_field_fails (set_entry entry_num_drive_rollers "8.5" gui_example) /\
  calculate_cycloidal_params (set_entry entry_num_drive_rollers "8.5" gui_example)
    = Ok (set_entry entry_num_drive_rollers "8.5" gui_example).
Proof.
  assert (Hfail : some_field_fails (set_entry entry_num_drive_rollers "8.5" gui_example)).
  { right. left. vm_compute. reflexivity. }
  split.
  - exact Hfail.
  - exact (calculate_aborts_silently _ Hfail).
Defined.

(** C2, as stated, fails: with the drive roller diameter "inf" every
    field parses, and the stored hole diameter is the text "inf", which
    has no decimals. *)
Lemma calculate_output_without_decimals :
  exists i st',
    parsed (set_entry entry_drive_roller_diameter "inf" gui_example) i /\
    calculate_cycloidal_params (set_entry entry_drive_roller_diameter "inf" gui_example)
      = Ok st' /\
    var_get hole_drive_roller_var st' = "inf" /\
    Py.fixed3 (var_get hole_drive_roller_var st') = false.
Proof.
  set (st := set_entry entry_drive_roller_diameter "inf" gui_example).
  set (i := {| shaft_diam := shaft_diam inputs_example;
               num_drive_rollers := 8;
               drive_roller_diam := S754_infinity false;
               drive_roller_base_thickness := drive_roller_base_thickness inputs_example;
               roller_base_diam := roller_base_diam inputs_example;
               ring_pin_diam := ring_pin_diam inputs_example;
               cycloidal_pin_diam := cycloidal_pin_diam inputs_example;
               cycloidal_pin_height := cycloidal_pin_height inputs_example;
               tolerance_val := tolerance_val inputs_example;
               cycloidal_disc_id := cycloidal_disc_id inputs_example;
               cycloidal_disc_thickness := cycloidal_disc_thickness inputs_example |}).
  assert (Hp : parsed st i) by (repeat split; vm_compute; reflexivity).
  exists i. eexists. split; [exact Hp |]. split.
  - exact (calculate_parsed st i Hp).
  - split; vm_compute; reflexivity.
Qed.

(** C2, amended. When all eleven fields parse, the full calculation
    stores, each formatted by [.3f]: the drive roller diameter plus 0.2
    minus the tolerance, the cycloidal pin diameter plus 0.2 minus the
    tolerance, and half the difference of the ring pin and cycloidal pin
    diameters (binary64 arithmetic, in this order).  An output whose
    value is finite is a fixed-point text with exactly three decimals. *)
Theorem calculate_stores_outputs (st : gui) (i : inputs) :
  parsed st i ->
  exists st',
    calculate_cycloidal_params st = Ok st' /\
    var_get hole_drive_roller_var st' =
      Py.format_3f (Py.fsub (Py.fadd (drive_roller_diam i) lit_0_2) (tolerance_val i)) /\
    var_get hole_cycloidal_pin_var st' =
      Py.format_3f (Py.fsub (Py.fadd (cycloidal_pin_diam i) lit_0_2) (tolerance_val i)) /\
    var_get eccentricity_var st' =
      Py.format_3f (Py.fdiv (Py.fsub (ring_pin_diam i) (cycloidal_pin_diam i)) lit_2_0) /\
    (Py.is_finite (Py.fsub (Py.fadd (drive_roller_diam i) lit_0_2) (tolerance_val i)) = true ->
     Py.fixed3 (var_get hole_drive_roller_var st') = true) /\
    (Py.is_finite (Py.fsub (Py.fadd (cycloidal_pin_diam i) lit_0_2) (tolerance_val i)) = true ->
     Py.fixed3 (var_get hole_cycloidal_pin_var st') = true) /\
    (Py.is_finite (Py.fdiv (Py.fsub (ring_pin_diam i) (cycloidal_pin_diam i)) lit_2_0) = true ->
     Py.fixed3 (var_get eccentricity_var st') = true).
Proof.
  intros Hp. eexists. split; [exact (calculate_parsed st i Hp) |].
  unfold var_get, var_set; simpl.
  repeat split; try reflexivity; apply PyFacts.format_3f_fixed3.
Qed.

(** The examples of the specification: 6.0 with tolerance 0.05 gives
    "6.150", and the pins 8.0 and 6.0 give the eccentricity "1.000". *)
Lemma calculate_stores_outputs_witness :
  parsed gui_example inputs_example /\
  exists st',
    calculate_cycloidal_params gui_example = Ok st' /\
    var_get hole_drive_roller_var st' = "6.150" /\
    var_get hole_cycloidal_pin_var st' = "6.150" /\
    var_get eccentricity_var st' = "1.000".
Proof.
  assert (Hp : parsed gui_example inputs_example)
    by (repeat split; vm_compute; reflexivity).
  split; [exact Hp |].
  destruct (calculate_stores_outputs gui_example inputs_example Hp)
    as (st' & Hcalc & Hd & Hc & He & _).
  exists st'. split; [exact Hcalc |].
  rewrite Hd, Hc, He. repeat split; vm_compute; reflexivity.
Defined.

(** C6. The number of drive rollers, the drive roller base thickness, the
    cycloidal pin height and the cycloidal disc thickness must parse but
    enter no formula: two runs whose eleven fields all parse and that
    differ only in these four fields store the same three outputs. *)
Theorem dead_inputs_do_not_reach_outputs (st1 st2 : gui) (i1 i2 : inputs) :
  parsed st1 i1 ->
  parsed st2 i2 ->
  (forall e, is_dead_entry e = false -> get e st1 = get e st2) ->
  var_get cycloidal_disc_id_var st1 = var_get cycloidal_disc_id_var st2 ->
  exists st1' st2',
    calculate_cycloidal_params st1 = Ok st1' /\
    calculate_cycloidal_params st2 = Ok st2' /\
    var_get hole_drive_roller_var st1' = var_get hole_drive_roller_var st2' /\
    var_get hole_cycloidal_pin_var st1' = var_get hole_cycloidal_pin_var st2' /\
    var_get eccentricity_var st1' = var_get eccentricity_var st2'.
Proof.
  intros Hp1 Hp2 Hsame _.
  assert (Hcons : forall e, is_consumed_entry e = true -> get e st1 = get e st2).
  { intros e He. apply Hsame. destruct e; try discriminate He; reflexivity. }
  destruct (outputs_of_consumed i1 i2 (consumed_values_agree st1 st2 i1 i2 Hp1 Hp2 Hcons))
    as (Hd & Hc & He).
  do 2 eexists.
  split; [exact (calculate_parsed st1 i1 Hp1) |].
  split; [exact (calculate_parsed st2 i2 Hp2) |].
  unfold var_get, var_set; simpl. rewrite Hd, Hc, He. repeat split; reflexivity.
Qed.

Lemma dead_inputs_do_not_reach_outputs_witness :
  exists st1' st2',
    calculate_cycloidal_params gui_example = Ok st1' /\
    calculate_cycloidal_params gui_other_dead = Ok st2' /\
    var_get hole_drive_roller_var st1' = var_get hole_drive_roller_var st2' /\
    var_get hole_cycloidal_pin_var st1' = var_get hole_cycloidal_pin_var st2' /\
    var_get eccentricity_var st1' = var_get eccentricity_var st2'.
Proof.
  apply (dead_inputs_do_not_reach_outputs
           gui_example gui_other_dead inputs_example inputs_other_dead).
  - repeat split; vm_compute; reflexivity.
  - repeat split; vm_compute; reflexivity.
  - intros e He. destruct e; try discriminate He; reflexivity.
  - reflexivity.
Defined.

(** C9. A full calculation that succeeds writes the three output
    variables and nothing else: the text of every entry and of every
    other variable (the bearing fields of the shaft and of the roller
    base, the cycloidal disc inner diameter) is what it was. *)
Theorem calculate_frame (st : gui) (i : inputs) :
  parsed st i ->
  exists st',
    calculate_cycloidal_params st = Ok st' /\
    (forall e, get e st' = get e st) /\
    (forall v, is_output v = false -> var_get v st' = var_get v st).
Proof.
  intros Hp. eexists. split; [exact (calculate_parsed st i Hp) |].
  split.
  - intros e. reflexivity.
  - intros v Hv. unfold var_get, var_set; simpl.
    destruct v; try discriminate Hv; reflexivity.
Qed.

Lemma calculate_frame_witness :
  exists st',
    calculate_cycloidal_params gui_example = Ok st' /\
    (forall e, get e st' = get e gui_example) /\
    (forall v, is_output v = false -> var_get v st' = var_get v gui_example).
Proof.
  apply (calculate_frame gui_example inputs_example).
  repeat split; vm_compute; reflexivity.
Defined.

(** C10. The three outputs depend only on the drive roller diameter, the
    cycloidal pin diameter, the ring pin diameter and the tolerance: two
    runs whose eleven fields all parse and that agree on these four
    entries store the same three outputs, whatever the shaft diameter,
    the roller base diameter and the cycloidal disc inner diameter. *)
Theorem outputs_depend_on_consumed_only (st1 st2 : gui) (i1 i2 : inputs) :
  parsed st1 i1 ->
  parsed st2 i2 ->
  (forall e, is_consumed_entry e = true -> get e st1 = get e st2) ->
  exists st1' st2',
    calculate_cycloidal_params st1 = Ok st1' /\
    calculate_cycloidal_params st2 = Ok st2' /\
    var_get hole_drive_roller_var st1' = var_get hole_drive_roller_var st2' /\
    var_get hole_cycloidal_pin_var st1' = var_get hole_cycloidal_pin_var st2' /\
    var_get eccentricity_var st1' = var_get eccentricity_var st2'.
Proof.
  intros Hp1 Hp2 Hcons.
  destruct (outputs_of_consumed i1 i2 (consumed_values_agree st1 st2 i1 i2 Hp1 Hp2 Hcons))
    as (Hd & Hc & He).
  do 2 eexists.
  split; [exact (calculate_parsed st1 i1 Hp1) |].
  split; [exact (calculate_parsed st2 i2 Hp2) |].
  unfold var_get, var_set; simpl. rewrite Hd, Hc, He. repeat split; reflexivity.
Qed.

Lemma outputs_depend_on_consumed_only_witness :
  exists st1' st2',
    calculate_cycloidal_params gui_example = Ok st1' /\
    calculate_cycloidal_params gui_other_unused = Ok st2' /\
    var_get hole_drive_roller_var st1' = var_get hole_drive_roller_var st2' /\
    var_get hole_cycloidal_pin_var st1' = var_get hole_cycloidal_pin_var st2' /\
    var_get eccentricity_var st1' = var_get eccentricity_var st2'.
Proof.
  apply (outputs_depend_on_consumed_only
           gui_example gui_other_unused inputs_example inputs_other_unused).
  - repeat split; vm_compute; reflexivity.
  - repeat split; vm_compute; reflexivity.
  - intros e He. destruct e; try discriminate He; reflexivity.
Defined.

(** *** The lookup *)

(** The scan returns nothing exactly when no bearing matches. *)
Lemma find_bearing_by_ID_None (cat : list bearing) (v : Py.binary64) :
  find_bearing_by_ID cat v = None <-> Forall (fun b => id_matches b v = false) cat.
Proof.
  induction cat as [| b cat IH]; simpl.
  - split; [constructor | reflexivity].
  - destruct (id_matches b v) eqn:Hb.
    + split; [discriminate |].
      intros H. inversion H; congruence.
    + rewrite IH. split.
      * intros H. constructor; assumption.
      * intros H. inversion H; assumption.
Qed.

(** The scan returns [r] exactly when [r] is the first bearing, in the
    order of the catalog, that matches. *)
Lemma find_bearing_by_ID_Some (cat : list bearing) (v : Py.binary64) (r : bearing) :
  find_bearing_by_ID cat v = Some r <->
  exists pre post,
    cat = pre ++ r :: post /\
    Forall (fun b => id_matches b v = false) pre /\
    id_matches r v = true.
Proof.
  induction cat as [| b cat IH]; simpl.
  - split; [discriminate |].
    intros (pre & post & Heq & _). destruct pre; discriminate Heq.
  - destruct (id_matches b v) eqn:Hb.
    + split.
      * intros H. injection H as <-. exists [], cat. repeat split; [constructor | exact Hb].
      * intros (pre & post & Heq & Hpre & Hr).
        destruct pre as [| p pre]; simpl in Heq; injection Heq as <- Hcat.
        -- reflexivity.
        -- inversion Hpre; congruence.
    + rewrite IH. split.
      * intros (pre & post & -> & Hpre & Hr).
        exists (b :: pre), post. repeat split; [constructor; assumption | exact Hr].
      * intros (pre & post & Heq & Hpre & Hr).
        destruct pre as [| p pre]; simpl in Heq; injection Heq as <- Hcat.
        -- congruence.
        -- exists pre, post. inversion Hpre. repeat split; assumption.
Qed.

(** A bearing matches its own inner diameter when that is finite. *)
Lemma id_matches_own (b : bearing) :
  Py.is_finite (ID b) = true -> id_matches b (ID b) = true.
Proof.
  intros Hfin. unfold id_matches.
  rewrite (PyFacts.fsub_diag (ID b) Hfin). reflexivity.
Qed.

(** C3, as stated, fails: the catalog loaded from a file whose row has
    the inner diameter "inf" holds a bearing that the lookup of its own
    inner diameter does not find. *)
Lemma lookup_of_own_infinite_diameter_misses :
  load_bearings fs_inf "bearing.csv" = Ok [bearing_inf] /\
  In bearing_inf [bearing_inf] /\
  find_bearing_by_ID [bearing_inf] (ID bearing_inf) = None.
Proof.
  split; [vm_compute; reflexivity |].
  split; [left; reflexivity |].
  vm_compute. reflexivity.
Qed.

(** C3, amended. [find_bearing_by_ID] scans the catalog in order: it
    returns the first bearing whose inner diameter is within 1e-6 of the
    value (the bearings before it are not), and nothing when no bearing
    is.  For every bearing R of the catalog whose inner diameter is
    finite, the lookup of R's inner diameter finds a bearing within 1e-6
    of it. *)
Theorem find_bearing_by_ID_first_match (cat : list bearing) (v : Py.binary64) :
  (forall r,
     find_bearing_by_ID cat v = Some r <->
     exists pre post,
       cat = pre ++ r :: post /\
       Forall (fun b => id_matches b v = false) pre /\
       id_matches r v = true) /\
  (find_bearing_by_ID cat v = None <->
   Forall (fun b => id_matches b v = false) cat) /\
  (forall R,
     In R cat -> Py.is_finite (ID R) = true ->
     exists r, find_bearing_by_ID cat (ID R) = Some r /\
               id_matches r (ID R) = true).
Proof.
  split; [intros r; apply find_bearing_by_ID_Some |].
  split; [apply find_bearing_by_ID_None |].
  intros R Hin Hfin.
  destruct (find_bearing_by_ID cat (ID R)) as [r |] eqn:Hfind.
  - exists r. split; [reflexivity |].
    apply find_bearing_by_ID_Some in Hfind as (pre & post & _ & _ & Hr). exact Hr.
  - exfalso. apply find_bearing_by_ID_None in Hfind.
    rewrite List.Forall_forall in Hfind.
    specialize (Hfind R Hin). rewrite (id_matches_own R Hfin) in Hfind. discriminate.
Qed.

Lemma find_bearing_by_ID_first_match_witness :
  In bearing_B1 [bearing_inf; bearing_B1; bearing_B1] /\
  Py.is_finite (ID bearing_B1) = true /\
  exists r, find_bearing_by_ID [bearing_inf; bearing_B1; bearing_B1] (ID bearing_B1) = Some r /\
            id_matches r (ID bearing_B1) = true.
Proof.
  assert (Hin : In bearing_B1 [bearing_inf; bearing_B1; bearing_B1])
    by (right; left; reflexivity).
  assert (Hfin : Py.is_finite (ID bearing_B1) = true) by reflexivity.
  split; [exact Hin |]. split; [exact Hfin |].
  exact (proj2 (proj2 (find_bearing_by_ID_first_match
                         [bearing_inf; bearing_B1; bearing_B1] (ID bearing_B1)))
           bearing_B1 Hin Hfin).
Defined.

(** *** The two traced derivations *)

(** C4. When the text of the shaft diameter (of the roller base
    diameter) is not a number, or is one that no bearing of the catalog
    matches, the handler returns normally and leaves the state as it was:
    no value derived earlier is erased or changed. *)
Theorem derivation_miss_is_sticky (cat : list bearing) (v : traced_var) (st : gui) :
  lookup_misses cat v st ->
  trace_write cat v st = Ok st.
Proof.
  intros [Hbad | (x & Hx & Hnone)];
    destruct v; simpl in *;
    unfold on_shaft_diameter_change, on_roller_base_diameter_change, try_ValueError.
  - rewrite Hbad. reflexivity.
  - rewrite Hbad. reflexivity.
  - rewrite Hx, Hnone. reflexivity.
  - rewrite Hx, Hnone. reflexivity.
Qed.

Lemma derivation_miss_is_sticky_witness :
  lookup_misses [bearing_B1] shaft_diameter_var
    (set_entry entry_shaft_diameter "10.0x" gui_example) /\
  trace_write [bearing_B1] shaft_diameter_var
    (set_entry entry_shaft_diameter "10.0x" gui_example)
  = Ok (set_entry entry_shaft_diameter "10.0x" gui_example).
Proof.
  assert (Hmiss : lookup_misses [bearing_B1] shaft_diameter_var
                    (set_entry entry_shaft_diameter "10.0x" gui_example)).
  { left. vm_compute. reflexivity. }
  split; [exact Hmiss |].
  exact (derivation_miss_is_sticky _ _ _ Hmiss).
Defined.

(** C5. When the text of the shaft diameter is a number that a bearing
    of the catalog matches, the handler stores the thickness, the outer
    diameter and the part number of the first such bearing in the three
    shaft bearing variables, and its outer diameter in the cycloidal disc
    inner diameter; numbers are stored as their [str]. *)
Theorem shaft_derivation_copies_bearing
    (cat : list bearing) (st : gui) (sd : Py.binary64) (r : bearing) :
  Py.float (get entry_shaft_diameter st) = Ok sd ->
  find_bearing_by_ID cat sd = Some r ->
  exists st',
    on_shaft_diameter_change cat st = Ok st' /\
    var_get bearing_thickness_var st' = Py.str (Thickness r) /\
    var_get bearing_od_var st' = Py.str (OD r) /\
    var_get part_number_shaft_var st' = text_of_value (PartNumber r) /\
    (forall p, PartNumber r = Some p -> var_get part_number_shaft_var st' = p) /\
    var_get cycloidal_disc_id_var st' = Py.str (OD r).
Proof.
  intros Hsd Hfind. eexists. split.
  - unfold on_shaft_diameter_change, try_ValueError. rewrite Hsd, Hfind. reflexivity.
  - unfold var_get, var_set; simpl. repeat split; try reflexivity.
    intros p Hp. rewrite Hp. reflexivity.
Qed.

(** The example of the specification: the row [B1, 10.0, 22.0, 6.0] and
    the text "10.0". *)
Lemma shaft_derivation_copies_bearing_witness :
  load_bearings fs_B1 "bearing.csv" = Ok [bearing_B1] /\
  exists st',
    on_shaft_diameter_change [bearing_B1]
      (make_gui (fun _ => "10.0") (fun _ => "")) = Ok st' /\
    var_get bearing_thickness_var st' = "6.0" /\
    var_get bearing_od_var st' = "22.0" /\
    var_get part_number_shaft_var st' = "B1" /\
    var_get cycloidal_disc_id_var st' = "22.0".
Proof.
  split; [vm_compute; reflexivity |].
  destruct (shaft_derivation_copies_bearing
              [bearing_B1] (make_gui (fun _ => "10.0") (fun _ => ""))
              (Py.float_of_decimal false 100 (-1)) bearing_B1)
    as (st' & Hrun & Hth & Hod & _ & Hpn & Hid).
  - vm_compute. reflexivity.
  - vm_compute. reflexivity.
  - exists st'. split; [exact Hrun |].
    rewrite Hth, Hod, Hid, (Hpn "B1" eq_refl).
    repeat split; vm_compute; reflexivity.
Defined.

(** *** Loading the catalog *)

Ltac raised_already := eexists; reflexivity.

(** A row with a text that is no number in a numeric column builds no
    bearing: evaluating the dictionary raises at that item, or before. *)
Lemma bearing_of_row_non_numeric (row : csv_row) :
  non_numeric_field row -> exists e, bearing_of_row row = Raise e.
Proof.
  intros (key & s & Hkey & Hlook & Hnone).
  assert (Hraise : float_of_value (Some s) = Raise ValueError).
  { unfold float_of_value, Py.float. rewrite Hnone. reflexivity. }
  unfold bearing_of_row, bind, getitem.
  destruct (row !! "PartNumber") as [pn |]; [| raised_already].
  cbv beta iota.
  destruct Hkey as [<- | [<- | [<- | []]]].
  - rewrite Hlook. cbv beta iota. rewrite Hraise. raised_already.
  - destruct (row !! "ID") as [v_id |]; [| raised_already].
    cbv beta iota.
    destruct (float_of_value v_id); [| raised_already].
    rewrite Hlook. cbv beta iota. rewrite Hraise. raised_already.
  - destruct (row !! "ID") as [v_id |]; [| raised_already].
    cbv beta iota.
    destruct (float_of_value v_id); [| raised_already].
    destruct (row !! "OD") as [v_od |]; [| raised_already].
    cbv beta iota.
    destruct (float_of_value v_od); [| raised_already].
    rewrite Hlook. cbv beta iota. rewrite Hraise. raised_already.
Qed.

(** On a row with its four texts, the only exception is [ValueError]. *)
Lemma bearing_of_row_complete (row : csv_row) (e : exn) :
  complete_row row -> bearing_of_row row = Raise e -> e = ValueError.
Proof.
  intros Hrow.
  destruct (Hrow "PartNumber") as (pn & Hpn); [left; reflexivity |].
  destruct (Hrow "ID") as (s_id & Hid); [right; left; reflexivity |].
  destruct (Hrow "OD") as (s_od & Hod); [right; right; left; reflexivity |].
  destruct (Hrow "Thickness") as (s_th & Hth); [right; right; right; left; reflexivity |].
  unfold bearing_of_row, bind, getitem, float_of_value.
  rewrite Hpn, Hid, Hod, Hth. cbv beta iota.
  destruct (Py.float s_id) as [b_id | e1] eqn:E1;
    [| intros H; injection H as <-; exact (float_raises _ _ E1)].
  destruct (Py.float s_od) as [b_od | e2] eqn:E2;
    [| intros H; injection H as <-; exact (float_raises _ _ E2)].
  destruct (Py.float s_th) as [b_th | e3] eqn:E3;
    [| intros H; injection H as <-; exact (float_raises _ _ E3)].
  discriminate.
Qed.

Lemma read_rows_bad_row (rows : list csv_row) :
  Exists non_numeric_field rows ->
  forall bearings_data,
    (exists e, read_rows rows bearings_data = Raise e) /\
    (Forall complete_row rows -> read_rows rows bearings_data = Raise ValueError).
Proof.
  induction rows as [| row rest IH]; intros Hbad acc.
  - inversion Hbad.
  - simpl. unfold bind.
    destruct (bearing_of_row row) as [b | e] eqn:Hrow.
    + assert (Hrest : Exists non_numeric_field rest).
      { inversion Hbad as [? ? Hhere | ? ? Hlater]; subst; [| exact Hlater].
        destruct (bearing_of_row_non_numeric row Hhere) as (e & He). congruence. }
      destruct (IH Hrest (acc ++ [b])) as (Hsome & Hvalue).
      split; [exact Hsome |].
      intros Hall. apply Hvalue. inversion Hall; assumption.
    + split; [raised_already |].
      intros Hall. f_equal.
      apply (bearing_of_row_complete row e); [inversion Hall; assumption | exact Hrow].
Qed.

(** C7. When the catalog file exists and one of its rows has a text that
    is no number in the column ID, OD or Thickness, [load_bearings]
    raises: it returns no catalog, not even the rows before the bad one.
    When every row has its four texts the exception is the conversion
    error [ValueError]. *)
Theorem load_bearings_fails_on_bad_row
    (fs : filesystem) (csv_filename : string) (rows : list csv_row) :
  fs !! csv_filename = Some (RegularFile rows) ->
  Exists non_numeric_field rows ->
  (exists e, load_bearings fs csv_filename = Raise e) /\
  (Forall complete_row rows -> load_bearings fs csv_filename = Raise ValueError).
Proof.
  intros Hfile Hbad.
  unfold load_bearings, isfile, reader. rewrite Hfile. simpl negb. cbv iota.
  exact (read_rows_bad_row rows Hbad []).
Qed.

Lemma load_bearings_fails_on_bad_row_witness :
  load_bearings fs_bad_row "bearing.csv" = Raise ValueError.
Proof.
  refine (proj2 (load_bearings_fails_on_bad_row fs_bad_row "bearing.csv"
                   [make_row "B1" "10.0" "22.0" "6.0";
                    make_row "B2" "12.0" "28.0" "thick"] _ _) _).
  - vm_compute. reflexivity.
  - right. left. exists "Thickness", "thick".
    split; [right; right; left; reflexivity |].
    split; vm_compute; reflexivity.
  - repeat constructor;
      intros key [<- | [<- | [<- | [<- | []]]]]; eexists; vm_compute; reflexivity.
Defined.

(** C8. When no file has the name, [load_bearings] returns the empty
    catalog and raises nothing. *)
Theorem load_bearings_missing_file (fs : filesystem) (csv_filename : string) :
  fs !! csv_filename = None ->
  load_bearings fs csv_filename = Ok [].
Proof.
  intros Hmissing. unfold load_bearings, isfile. rewrite Hmissing. reflexivity.
Qed.

Lemma load_bearings_missing_file_witness :
  fs_B1 !! "bearings.csv" = None /\ load_bearings fs_B1 "bearings.csv" = Ok [].
Proof.
  assert (Hmissing : fs_B1 !! "bearings.csv" = None) by (vm_compute; reflexivity).
  split; [exact Hmissing |].
  exact (load_bearings_missing_file fs_B1 "bearings.csv" Hmissing).
Defined.

(** ** Further properties *)

(** *** Loading the catalog, row by row *)

(** The dictionary of the loop is built exactly from a row that has the
    part number column and a number in each numeric column. *)
Lemma bearing_of_row_loads (row : csv_row) (b : bearing) :
  bearing_of_row row = Ok b <-> loads_as row b.
Proof.
  unfold bearing_of_row, loads_as, bind, getitem, float_of_value, Py.float.
  destruct (row !! "PartNumber") as [pn |];
    [| split; [discriminate | intros (H & _); discriminate]].
  destruct (row !! "ID") as [[s_id |] |]; cbv beta iota;
    [| split; [discriminate | intros (_ & (s & H & _) & _); discriminate] ..].
  destruct (Py.float_of_string s_id) as [b_id |] eqn:E_id;
    [| split; [discriminate | intros (_ & (s & H & H') & _); congruence]].
  destruct (row !! "OD") as [[s_od |] |]; cbv beta iota;
    [| split; [discriminate | intros (_ & _ & (s & H & _) & _); discriminate] ..].
  destruct (Py.float_of_string s_od) as [b_od |] eqn:E_od;
    [| split; [discriminate | intros (_ & _ & (s & H & H') & _); congruence]].
  destruct (row !! "Thickness") as [[s_th |] |]; cbv beta iota;
    [| split; [discriminate | intros (_ & _ & _ & (s & H & _)); discriminate] ..].
  destruct (Py.float_of_string s_th) as [b_th |] eqn:E_th;
    [| split; [discriminate | intros (_ & _ & _ & (s & H & H')); congruence]].
  split.
  - intros H. injection H as <-. simpl.
    split; [reflexivity |].
    split; [exists s_id; split; [reflexivity | exact E_id] |].
    split; [exists s_od; split; [reflexivity | exact E_od] |].
    exists s_th; split; [reflexivity | exact E_th].
  - intros (Hpn & (s1 & H1 & H1') & (s2 & H2 & H2') & (s3 & H3 & H3')).
    destruct b as [pn' i' o' t']. simpl in *. congruence.
Qed.

(** The loop appends one bearing per row, in the order of the rows, to
    what was collected before, or returns no list at all. *)
Lemma read_rows_loads (rows : list csv_row) :
  forall bearings_data cat,
    read_rows rows bearings_data = Ok cat <->
    exists bs, Forall2 loads_as rows bs /\ cat = bearings_data ++ bs.
Proof.
  induction rows as [| row rest IH]; intros acc cat; simpl.
  - split.
    + intros H. injection H as <-. exists []. split; [constructor |].
      symmetry. apply app_nil_r.
    + intros (bs & Hbs & ->). inversion Hbs. rewrite app_nil_r. reflexivity.
  - unfold bind. destruct (bearing_of_row row) as [b | e] eqn:Hrow.
    + rewrite IH. split.
      * intros (bs & Hbs & ->). exists (b :: bs).
        split; [constructor; [apply bearing_of_row_loads |]; assumption |].
        rewrite <- app_assoc. reflexivity.
      * intros (bs & Hbs & ->).
        inversion Hbs as [| row' b' rest' bs' Hb' Hrest]; subst.
        apply bearing_of_row_loads in Hb'.
        assert (b' = b) by congruence. subst b'.
        exists bs'. split; [exact Hrest |].
        rewrite <- app_assoc. reflexivity.
    + split; [discriminate |].
      intros (bs & Hbs & _).
      inversion Hbs as [| row' b' rest' bs' Hb' Hrest]; subst.
      apply bearing_of_row_loads in Hb'. congruence.
Qed.

(** With the file in place, loading succeeds exactly with one bearing
    per row. *)
Lemma load_bearings_loads
    (fs : filesystem) (csv_filename : string) (rows : list csv_row)
    (cat : list bearing) :
  fs !! csv_filename = Some (RegularFile rows) ->
  load_bearings fs csv_filename = Ok cat <-> Forall2 loads_as rows cat.
Proof.
  intros Hfile.
  unfold load_bearings, isfile, reader. rewrite Hfile. simpl negb. cbv iota.
  rewrite read_rows_loads. split.
  - intros (bs & Hbs & ->). exact Hbs.
  - intros Hbs. exists cat. split; [exact Hbs | reflexivity].
Qed.

(** X1. When the catalog file exists, [load_bearings] returns a catalog
    exactly when every row has the four columns and a number in ID, OD
    and Thickness; the catalog then has one bearing per row, in the order
    of the file, with the part number of the row and the values of its
    three numbers. *)
Theorem load_bearings_row_by_row
    (fs : filesystem) (csv_filename : string) (rows : list csv_row)
    (cat : list bearing) :
  fs !! csv_filename = Some (RegularFile rows) ->
  (load_bearings fs csv_filename = Ok cat <-> Forall2 loads_as rows cat) /\
  (load_bearings fs csv_filename = Ok cat -> length cat = length rows).
Proof.
  intros Hfile.
  pose proof (load_bearings_loads fs csv_filename rows cat Hfile) as Hiff.
  split; [exact Hiff |].
  intros Hload. apply Hiff in Hload.
  symmetry. exact (Forall2_length _ _ _ Hload).
Qed.

Lemma load_bearings_row_by_row_witness :
  Forall2 loads_as [make_row "B1" "10.0" "22.0" "6.0"; make_row "B2" "12" "2.8e1" " 8 "]
    [bearing_B1; bearing_B2] /\
  load_bearings
    (<["bearing.csv" := RegularFile [make_row "B1" "10.0" "22.0" "6.0";
                                     make_row "B2" "12" "2.8e1" " 8 "]]> ∅)
    "bearing.csv" = Ok [bearing_B1; bearing_B2].
Proof.
  assert (Hrows : Forall2 loads_as
                    [make_row "B1" "10.0" "22.0" "6.0"; make_row "B2" "12" "2.8e1" " 8 "]
                    [bearing_B1; bearing_B2]).
  { constructor; [| constructor; [| constructor]].
    - split; [vm_compute; reflexivity |].
      split; [exists "10.0" | split; [exists "22.0" | exists "6.0"]];
        split; vm_compute; reflexivity.
    - split; [vm_compute; reflexivity |].
      split; [exists "12" | split; [exists "2.8e1" | exists " 8 "]];
        split; vm_compute; reflexivity. }
  split; [exact Hrows |].
  refine (proj2 (proj1 (load_bearings_row_by_row _ "bearing.csv" _ _ _)) Hrows).
  vm_compute. reflexivity.
Defined.

(** X2. When the catalog file exists and one of its rows lacks one of the
    four columns, or is too short to have a text in ID, OD or Thickness,
    [load_bearings] raises and returns no catalog; when the first row
    lacks the column PartNumber the exception is [KeyError]. *)
Theorem load_bearings_fails_on_malformed_row
    (fs : filesystem) (csv_filename : string) (rows : list csv_row) :
  fs !! csv_filename = Some (RegularFile rows) ->
  Exists malformed_row rows ->
  (exists e, load_bearings fs csv_filename = Raise e) /\
  (forall row rest, rows = row :: rest -> row !! "PartNumber" = None ->
                    load_bearings fs csv_filename = Raise KeyError).
Proof.
  intros Hfile Hbad. split.
  - destruct (load_bearings fs csv_filename) as [cat | e] eqn:Hload;
      [| exists e; reflexivity].
    exfalso.
    apply (load_bearings_loads fs csv_filename rows cat Hfile) in Hload.
    clear Hfile. induction Hload as [| row b rest cat' Hrow Hrest IH].
    + inversion Hbad.
    + inversion Hbad as [? ? Hhere | ? ? Hlater]; subst; [| exact (IH Hlater)].
      destruct Hrow as (Hpn & (s1 & H1 & _) & (s2 & H2 & _) & (s3 & H3 & _)).
      destruct Hhere as [(key & Hkey & Hnone) | (key & Hkey & Hnone)].
      * destruct Hkey as [<- | [<- | [<- | [<- | []]]]]; congruence.
      * destruct Hkey as [<- | [<- | [<- | []]]]; congruence.
  - intros row rest -> Hpn.
    unfold load_bearings, isfile, reader. rewrite Hfile. simpl.
    unfold bearing_of_row, bind, getitem. rewrite Hpn. reflexivity.
Qed.

Lemma load_bearings_fails_on_malformed_row_witness :
  load_bearings (<["bearing.csv" := RegularFile [row_without_part_number]]> ∅)
    "bearing.csv" = Raise KeyError.
Proof.
  refine (proj2 (load_bearings_fails_on_malformed_row
                   (<["bearing.csv" := RegularFile [row_without_part_number]]> ∅)
                   "bearing.csv" [row_without_part_number] _ _)
            row_without_part_number [] eq_refl _).
  - vm_compute. reflexivity.
  - left. left. exists "PartNumber". split; [left; reflexivity | vm_compute; reflexivity].
  - vm_compute. reflexivity.
Defined.

(** *** The lookup and numbers that are not finite *)

(** The test of the scan holds only between two finite numbers. *)
Lemma id_matches_finite (b : bearing) (v : Py.binary64) :
  id_matches b v = true ->
  Py.is_finite (ID b) = true /\ Py.is_finite v = true.
Proof.
  unfold id_matches.
  destruct (ID b) as [s | s | | s m e], v as [s' | s' | | s' m' e'].
  all: try (intros _; split; reflexivity).
  all: try (destruct s); try (destruct s'); vm_compute; discriminate.
Qed.

Lemma find_bearing_by_ID_In (cat : list bearing) (v : Py.binary64) (r : bearing) :
  find_bearing_by_ID cat v = Some r -> In r cat /\ id_matches r v = true.
Proof.
  induction cat as [| b cat IH]; simpl; [discriminate |].
  destruct (id_matches b v) eqn:Hb.
  - intros H. injection H as <-. split; [left; reflexivity | exact Hb].
  - intros H. destruct (IH H) as (Hin & Hr). split; [right; exact Hin | exact Hr].
Qed.

(** X3. The lookup returns only bearings of the catalog whose inner
    diameter is finite, and only for a finite value: a value that is
    infinite or not a number finds nothing in any catalog, and a bearing
    whose inner diameter is infinite or not a number is never found. *)
Theorem find_bearing_by_ID_finite (cat : list bearing) (v : Py.binary64) :
  (forall r, find_bearing_by_ID cat v = Some r ->
             In r cat /\ Py.is_finite (ID r) = true /\ Py.is_finite v = true) /\
  (Py.is_finite v = false -> find_bearing_by_ID cat v = None).
Proof.
  assert (Hsome : forall r, find_bearing_by_ID cat v = Some r ->
             In r cat /\ Py.is_finite (ID r) = true /\ Py.is_finite v = true).
  { intros r Hfind. destruct (find_bearing_by_ID_In cat v r Hfind) as (Hin & Hr).
    destruct (id_matches_finite r v Hr) as (Hid & Hv).
    split; [exact Hin |]. split; [exact Hid | exact Hv]. }
  split; [exact Hsome |].
  intros Hv. destruct (find_bearing_by_ID cat v) as [r |] eqn:Hfind; [| reflexivity].
  destruct (Hsome r eq_refl) as (_ & _ & Hfin). congruence.
Qed.

Lemma find_bearing_by_ID_finite_witness :
  Py.is_finite S754_nan = false /\
  find_bearing_by_ID [bearing_inf; bearing_B1] S754_nan = None.
Proof.
  split; [reflexivity |].
  exact (proj2 (find_bearing_by_ID_finite [bearing_inf; bearing_B1] S754_nan) eq_refl).
Defined.

(** X4. A text that [float] reads as an infinity or as not a number
    ("inf", "-Infinity", "nan", "1e400") leaves the state as it was in
    both trace handlers, whatever the catalog holds. *)
Theorem derivation_ignores_non_finite
    (cat : list bearing) (v : traced_var) (st : gui) (x : Py.binary64) :
  Py.float (get (traced_entry v) st) = Ok x ->
  Py.is_finite x = false ->
  trace_write cat v st = Ok st.
Proof.
  intros Hx Hfin.
  assert (Hnone : find_bearing_by_ID cat x = None).
  { destruct (find_bearing_by_ID cat x) as [r |] eqn:Hfind; [| reflexivity].
    destruct (find_bearing_by_ID_In cat x r Hfind) as (_ & Hr).
    destruct (id_matches_finite r x Hr) as (_ & Hv). congruence. }
  destruct v; simpl in *;
    unfold on_shaft_diameter_change, on_roller_base_diameter_change, try_ValueError;
    rewrite Hx, Hnone; reflexivity.
Qed.

Lemma derivation_ignores_non_finite_witness :
  trace_write [bearing_inf; bearing_B1] shaft_diameter_var
    (set_entry entry_shaft_diameter "inf" gui_example)
  = Ok (set_entry entry_shaft_diameter "inf" gui_example).
Proof.
  apply (derivation_ignores_non_finite _ shaft_diameter_var _ (S754_infinity false)).
  - vm_compute. reflexivity.
  - reflexivity.
Defined.

(** *** The handlers on a match, and what they leave alone *)

(** X5. When the text of the roller base diameter is a number that a
    bearing of the catalog matches, the handler stores the thickness, the
    outer diameter and the part number of the first such bearing in the
    three roller base variables, and changes nothing else: every entry,
    the shaft bearing variables, the cycloidal disc inner diameter and
    the three outputs keep their text. *)
Theorem roller_base_derivation_copies_bearing
    (cat : list bearing) (st : gui) (rbd : Py.binary64) (r : bearing) :
  Py.float (get entry_roller_base_diameter st) = Ok rbd ->
  find_bearing_by_ID cat rbd = Some r ->
  exists st',
    on_roller_base_diameter_change cat st = Ok st' /\
    var_get roller_base_bearing_thickness_var st' = Py.str (Thickness r) /\
    var_get roller_base_bearing_od_var st' = Py.str (OD r) /\
    var_get part_number_roller_base_var st' = text_of_value (PartNumber r) /\
    (forall e, get e st' = get e st) /\
    (forall v, v <> roller_base_bearing_thickness_var ->
               v <> roller_base_bearing_od_var ->
               v <> part_number_roller_base_var ->
               var_get v st' = var_get v st).
Proof.
  intros Hrbd Hfind. eexists. split.
  - unfold on_roller_base_diameter_change, try_ValueError. rewrite Hrbd, Hfind. reflexivity.
  - unfold var_get, var_set, get; simpl. repeat split; try reflexivity.
    intros v H1 H2 H3. destruct v; try reflexivity; congruence.
Qed.

Lemma roller_base_derivation_copies_bearing_witness :
  exists st',
    on_roller_base_diameter_change [bearing_B1; bearing_B2]
      (set_entry entry_roller_base_diameter "12" gui_example) = Ok st' /\
    var_get roller_base_bearing_thickness_var st' = "8.0" /\
    var_get roller_base_bearing_od_var st' = "28.0" /\
    var_get part_number_roller_base_var st' = "B2" /\
    var_get cycloidal_disc_id_var st' = "22.0".
Proof.
  destruct (roller_base_derivation_copies_bearing
              [bearing_B1; bearing_B2]
              (set_entry entry_roller_base_diameter "12" gui_example)
              (Py.float_of_decimal false 12 0) bearing_B2)
    as (st' & Hrun & Hth & Hod & Hpn & _ & Hframe).
  - vm_compute. reflexivity.
  - vm_compute. reflexivity.
  - exists st'. split; [exact Hrun |].
    rewrite Hth, Hod, Hpn, (Hframe cycloidal_disc_id_var) by discriminate.
    repeat split; vm_compute; reflexivity.
Defined.

(** X6. On a match the shaft handler changes the three shaft bearing
    variables and the cycloidal disc inner diameter and nothing else:
    every entry, the roller base variables and the three outputs keep
    their text, so outputs computed from an earlier disc diameter stay
    displayed until the button is pressed again. *)
Theorem shaft_derivation_frame
    (cat : list bearing) (st : gui) (sd : Py.binary64) (r : bearing) :
  Py.float (get entry_shaft_diameter st) = Ok sd ->
  find_bearing_by_ID cat sd = Some r ->
  exists st',
    on_shaft_diameter_change cat st = Ok st' /\
    (forall e, get e st' = get e st) /\
    (forall v, v <> bearing_thickness_var -> v <> bearing_od_var ->
               v <> part_number_shaft_var -> v <> cycloidal_disc_id_var ->
               var_get v st' = var_get v st).
Proof.
  intros Hsd Hfind. eexists. split.
  - unfold on_shaft_diameter_change, try_ValueError. rewrite Hsd, Hfind. reflexivity.
  - unfold var_get, var_set, get; simpl. split; [reflexivity |].
    intros v H1 H2 H3 H4. destruct v; try reflexivity; congruence.
Qed.

Lemma shaft_derivation_frame_witness :
  exists st',
    on_shaft_diameter_change [bearing_B1; bearing_B2]
      (set_entry entry_shaft_diameter "12" gui_example) = Ok st' /\
    (forall e, get e st' = get e (set_entry entry_shaft_diameter "12" gui_example)) /\
    (forall v, v <> bearing_thickness_var -> v <> bearing_od_var ->
               v <> part_number_shaft_var -> v <> cycloidal_disc_id_var ->
               var_get v st' = var_get v (set_entry entry_shaft_diameter "12" gui_example)).
Proof.
  apply (shaft_derivation_frame [bearing_B1; bearing_B2] _
           (Py.float_of_decimal false 12 0) bearing_B2).
  - vm_compute. reflexivity.
  - vm_compute. reflexivity.
Defined.

(** *** The full calculation, again *)

(** The fields the [try] block reads are the entries and the cycloidal
    disc inner diameter: two states that agree on them parse alike. *)
Lemma parsed_ext (st1 st2 : gui) (i : inputs) :
  (forall e, get e st2 = get e st1) ->
  var_get cycloidal_disc_id_var st2 = var_get cycloidal_disc_id_var st1 ->
  parsed st1 i -> parsed st2 i.
Proof.
  intros He Hv Hp. unfold parsed in *. rewrite !He, Hv. exact Hp.
Qed.

(** The full calculation either leaves the state alone or has parsed
    every field. *)
Lemma calculate_cases (st : gui) :
  calculate_cycloidal_params st = Ok st \/
  exists i, parsed st i /\
    calculate_cycloidal_params st =
      Ok (var_set eccentricity_var (Py.format_3f (eccentricity_value i))
           (var_set hole_cycloidal_pin_var (Py.format_3f (cycloidal_pin_hole_diam i))
             (var_set hole_drive_roller_var (Py.format_3f (drive_roller_hole_diam i)) st))).
Proof.
  destruct (read_inputs st) as [i | e] eqn:Hread.
  - right. exists i. apply read_inputs_parsed in Hread.
    split; [exact Hread | exact (calculate_parsed st i Hread)].
  - left. apply read_inputs_raises in Hread as Hval. subst e.
    unfold calculate_cycloidal_params, try_ValueError. rewrite Hread. reflexivity.
Qed.

(** X7. Pressing the button twice is pressing it once: the full
    calculation reads nothing it writes, so a second run on the state the
    first one returned returns a state with the same texts. *)
Theorem calculate_idempotent (st st' : gui) :
  calculate_cycloidal_params st = Ok st' ->
  exists st'',
    calculate_cycloidal_params st' = Ok st'' /\
    (forall e, get e st'' = get e st') /\
    (forall v, var_get v st'' = var_get v st').
Proof.
  intros Hrun.
  destruct (calculate_cases st) as [Hsame | (i & Hp & Hcalc)].
  - assert (st' = st) by congruence. subst st'.
    exists st. split; [exact Hsame |]. split; reflexivity.
  - assert (Hst' : st' = var_set eccentricity_var (Py.format_3f (eccentricity_value i))
           (var_set hole_cycloidal_pin_var (Py.format_3f (cycloidal_pin_hole_diam i))
             (var_set hole_drive_roller_var (Py.format_3f (drive_roller_hole_diam i)) st)))
      by congruence.
    assert (Hp' : parsed st' i).
    { apply (parsed_ext st st' i); [| | exact Hp]; subst st'; reflexivity. }
    eexists. split; [exact (calculate_parsed st' i Hp') |].
    split; [reflexivity |].
    intros v. subst st'. unfold var_get, var_set; simpl.
    destruct v; reflexivity.
Qed.

Lemma calculate_idempotent_witness :
  exists st' st'',
    calculate_cycloidal_params gui_example = Ok st' /\
    calculate_cycloidal_params st' = Ok st'' /\
    var_get hole_drive_roller_var st' = "6.150" /\
    (forall v, var_get v st'' = var_get v st').
Proof.
  assert (Hp : parsed gui_example inputs_example)
    by (repeat split; vm_compute; reflexivity).
  pose proof (calculate_parsed gui_example inputs_example Hp) as Hcalc.
  eexists.
  destruct (calculate_idempotent gui_example _ Hcalc) as (st'' & Hrun & _ & Hvars).
  exists st''. split; [exact Hcalc |]. split; [exact Hrun |].
  split; [vm_compute; reflexivity | exact Hvars].
Defined.



(** *** The callbacks and the main loop *)

Lemma shaft_cases (cat : list bearing) (st : gui) :
  on_shaft_diameter_change cat st = Ok st \/
  exists sd r,
    Py.float (get entry_shaft_diameter st) = Ok sd /\
    find_bearing_by_ID cat sd = Some r /\
    on_shaft_diameter_change cat st =
      Ok (var_set cycloidal_disc_id_var (Py.str (OD r))
           (var_set part_number_shaft_var (text_of_value (PartNumber r))
             (var_set bearing_od_var (Py.str (OD r))
               (var_set bearing_thickness_var (Py.str (Thickness r)) st)))).
Proof.
  unfold on_shaft_diameter_change, try_ValueError.
  destruct (Py.float (get entry_shaft_diameter st)) as [sd | e] eqn:Hsd.
  - destruct (find_bearing_by_ID cat sd) as [r |] eqn:Hfind.
    + right. exists sd, r. split; [reflexivity |]. split; [exact Hfind | reflexivity].
    + left. reflexivity.
  - left. rewrite (float_raises _ _ Hsd). reflexivity.
Qed.

Lemma roller_base_cases (cat : list bearing) (st : gui) :
  on_roller_base_diameter_change cat st = Ok st \/
  exists rbd r,
    Py.float (get entry_roller_base_diameter st) = Ok rbd /\
    find_bearing_by_ID cat rbd = Some r /\
    on_roller_base_diameter_change cat st =
      Ok (var_set part_number_roller_base_var (text_of_value (PartNumber r))
           (var_set roller_base_bearing_od_var (Py.str (OD r))
             (var_set roller_base_bearing_thickness_var (Py.str (Thickness r)) st))).
Proof.
  unfold on_roller_base_diameter_change, try_ValueError.
  destruct (Py.float (get entry_roller_base_diameter st)) as [rbd | e] eqn:Hrbd.
  - destruct (find_bearing_by_ID cat rbd) as [r |] eqn:Hfind.
    + right. exists rbd, r. split; [reflexivity |]. split; [exact Hfind | reflexivity].
    + left. reflexivity.
  - left. rewrite (float_raises _ _ Hrbd). reflexivity.
Qed.

(** X9. No callback lets an exception out: whatever the catalog, the
    state and the event (an edit of any entry to any text, or the
    button), the callback returns normally. *)
Theorem callbacks_never_raise (cat : list bearing) (ev : event) (st : gui) :
  exists st', dispatch cat ev st = Ok st'.
Proof.
  destruct ev as [e text |]; simpl.
  - destruct e; simpl; try (eexists; reflexivity).
    + destruct (shaft_cases cat (set_entry entry_shaft_diameter text st))
        as [H | (sd & r & _ & _ & H)]; rewrite H; eexists; reflexivity.
    + destruct (roller_base_cases cat (set_entry entry_roller_base_diameter text st))
        as [H | (sd & r & _ & _ & H)]; rewrite H; eexists; reflexivity.
  - destruct (calculate_cases st) as [H | (i & _ & H)]; rewrite H; eexists; reflexivity.
Qed.

(** What one turn of the main loop does to the state. *)
Lemma step_cases (cat : list bearing) (st : gui) (ev : event) :
  match ev with
  | Edit e text =>
      step cat st ev = set_entry e text st \/
      (e = entry_shaft_diameter /\
       exists sd r,
         Py.float text = Ok sd /\ find_bearing_by_ID cat sd = Some r /\
         step cat st ev =
           var_set cycloidal_disc_id_var (Py.str (OD r))
             (var_set part_number_shaft_var (text_of_value (PartNumber r))
               (var_set bearing_od_var (Py.str (OD r))
                 (var_set bearing_thickness_var (Py.str (Thickness r))
                   (set_entry e text st))))) \/
      (e = entry_roller_base_diameter /\
       exists rbd r,
         Py.float text = Ok rbd /\ find_bearing_by_ID cat rbd = Some r /\
         step cat st ev =
           var_set part_number_roller_base_var (text_of_value (PartNumber r))
             (var_set roller_base_bearing_od_var (Py.str (OD r))
               (var_set roller_base_bearing_thickness_var (Py.str (Thickness r))
                 (set_entry e text st))))
  | Calculate =>
      step cat st ev = st \/
      exists i,
        parsed st i /\
        step cat st ev =
          var_set eccentricity_var (Py.format_3f (eccentricity_value i))
            (var_set hole_cycloidal_pin_var (Py.format_3f (cycloidal_pin_hole_diam i))
              (var_set hole_drive_roller_var (Py.format_3f (drive_roller_hole_diam i)) st))
  end.
Proof.
  destruct ev as [e text |]; unfold step, dispatch.
  - destruct e; simpl textvariable; cbv iota; try (left; reflexivity).
    + simpl trace_write.
      destruct (shaft_cases cat (set_entry entry_shaft_diameter text st))
        as [H | (sd & r & Hsd & Hfind & H)]; rewrite H.
      * left. reflexivity.
      * right. left. split; [reflexivity |]. exists sd, r.
        split; [exact Hsd |]. split; [exact Hfind | reflexivity].
    + simpl trace_write.
      destruct (roller_base_cases cat (set_entry entry_roller_base_diameter text st))
        as [H | (sd & r & Hsd & Hfind & H)]; rewrite H.
      * left. reflexivity.
      * right. right. split; [reflexivity |]. exists sd, r.
        split; [exact Hsd |]. split; [exact Hfind | reflexivity].
  - destruct (calculate_cases st) as [H | (i & Hp & H)]; rewrite H.
    + left. reflexivity.
    + right. exists i. split; [exact Hp | reflexivity].
Qed.

(** A property that holds of the empty window and that every turn keeps,
    for the events that satisfy [Q], holds after any run of such events. *)
Lemma mainloop_invariant (cat : list bearing) (Q : event -> Prop) (P : gui -> Prop) :
  P initial ->
  (forall st ev, Q ev -> P st -> P (step cat st ev)) ->
  forall events, Forall Q events -> P (mainloop cat events).
Proof.
  intros Hinit Hstep events. unfold mainloop.
  generalize initial Hinit. induction events as [| ev events IH]; intros st Hst Hall.
  - exact Hst.
  - simpl. inversion Hall as [| ? ? Hev Hrest]; subst.
    apply IH; [apply Hstep; assumption | exact Hrest].
Qed.

Lemma Forall_True (events : list event) : Forall (fun _ => True) events.
Proof. induction events; constructor; trivial. Qed.

(** X10. Whatever the user has done since the window opened, the
    cycloidal disc inner diameter shows the same text as the shaft
    bearing outer diameter: the two are written together, and only by the
    shaft handler. *)
Theorem disc_id_is_shaft_bearing_od (cat : list bearing) (events : list event) :
  var_get cycloidal_disc_id_var (mainloop cat events)
  = var_get bearing_od_var (mainloop cat events).
Proof.
  apply (mainloop_invariant cat (fun _ => True)
           (fun st => var_get cycloidal_disc_id_var st = var_get bearing_od_var st));
    [reflexivity | | apply Forall_True].
  intros st ev _ Hst. pose proof (step_cases cat st ev) as H.
  destruct ev as [e text |].
  - destruct H as [H | [(-> & sd & r & _ & _ & H) | (-> & sd & r & _ & _ & H)]];
      rewrite H; unfold var_get, var_set, set_entry in *; simpl; try exact Hst; reflexivity.
  - destruct H as [H | (i & _ & H)]; rewrite H; [exact Hst |].
    unfold var_get, var_set in *; simpl. exact Hst.
Qed.

(** X11. Whatever the user has done since the window opened, the three
    shaft bearing variables are all empty or show the thickness, the
    outer diameter and the part number of one and the same bearing of the
    catalog, and so do the three roller base variables: the window never
    mixes two bearings and never shows one the catalog lacks. *)
Theorem bearing_fields_show_one_bearing (cat : list bearing) (events : list event) :
  (shows_nothing bearing_thickness_var bearing_od_var part_number_shaft_var
     (mainloop cat events) \/
   shows_bearing cat bearing_thickness_var bearing_od_var part_number_shaft_var
     (mainloop cat events)) /\
  (shows_nothing roller_base_bearing_thickness_var roller_base_bearing_od_var
     part_number_roller_base_var (mainloop cat events) \/
   shows_bearing cat roller_base_bearing_thickness_var roller_base_bearing_od_var
     part_number_roller_base_var (mainloop cat events)).
Proof.
  apply (mainloop_invariant cat (fun _ => True)
           (fun st =>
              (shows_nothing bearing_thickness_var bearing_od_var part_number_shaft_var st \/
               shows_bearing cat bearing_thickness_var bearing_od_var
                 part_number_shaft_var st) /\
              (shows_nothing roller_base_bearing_thickness_var roller_base_bearing_od_var
                 part_number_roller_base_var st \/
               shows_bearing cat roller_base_bearing_thickness_var
                 roller_base_bearing_od_var part_number_roller_base_var st)));
    [ split; left; repeat split; reflexivity | | apply Forall_True].
  intros st ev _ (Hshaft & Hroller). pose proof (step_cases cat st ev) as H.
  destruct ev as [e text |].
  - destruct H as [H | [(-> & sd & r & _ & Hfind & H) | (-> & sd & r & _ & Hfind & H)]];
      rewrite H.
    + split; [exact Hshaft | exact Hroller].
    + split; [| exact Hroller].
      right. exists r. split; [exact (proj1 (find_bearing_by_ID_In cat sd r Hfind)) |].
      repeat split; reflexivity.
    + split; [exact Hshaft |].
      right. exists r. split; [exact (proj1 (find_bearing_by_ID_In cat sd r Hfind)) |].
      repeat split; reflexivity.
  - destruct H as [H | (i & _ & H)]; rewrite H; split; assumption.
Qed.

Lemma float_of_empty_text : Py.float "" = Raise ValueError.
Proof. reflexivity. Qed.

(** X12. Until an edit of the shaft diameter matches a bearing, the
    button shows nothing: the cycloidal disc inner diameter is still
    empty, it does not parse, and the three outputs stay empty whatever
    the other entries hold. *)
Theorem no_output_before_shaft_match (cat : list bearing) (events : list event) :
  Forall (no_shaft_match cat) events ->
  var_get cycloidal_disc_id_var (mainloop cat events) = "" /\
  var_get hole_drive_roller_var (mainloop cat events) = "" /\
  var_get hole_cycloidal_pin_var (mainloop cat events) = "" /\
  var_get eccentricity_var (mainloop cat events) = "".
Proof.
  apply (mainloop_invariant cat (no_shaft_match cat)
           (fun st =>
              var_get cycloidal_disc_id_var st = "" /\
              var_get hole_drive_roller_var st = "" /\
              var_get hole_cycloidal_pin_var st = "" /\
              var_get eccentricity_var st = ""));
    [repeat split; reflexivity |].
  intros st ev Hev Hst. pose proof (step_cases cat st ev) as H.
  destruct ev as [e text |].
  - destruct H as [H | [(-> & sd & r & Hsd & Hfind & H) | (-> & sd & r & _ & _ & H)]].
    + rewrite H. exact Hst.
    + simpl in Hev. rewrite (Hev sd Hsd) in Hfind. discriminate Hfind.
    + rewrite H. exact Hst.
  - destruct H as [H | (i & Hp & H)]; [rewrite H; exact Hst |].
    exfalso. destruct Hst as (Hdisc & _).
    unfold parsed in Hp. decompose [and] Hp.
    rewrite Hdisc, float_of_empty_text in *. discriminate.
Qed.

Lemma no_output_before_shaft_match_witness :
  Forall (no_shaft_match [bearing_B1; bearing_B2]) session_without_match /\
  var_get eccentricity_var (mainloop [bearing_B1; bearing_B2] session_without_match) = "" /\
  var_get roller_base_bearing_od_var
    (mainloop [bearing_B1; bearing_B2] session_without_match) = "28.0" /\
  var_get eccentricity_var (mainloop [bearing_B1; bearing_B2] session) = "1.000".
Proof.
  assert (Hall : Forall (no_shaft_match [bearing_B1; bearing_B2]) session_without_match).
  { unfold session_without_match.
    repeat (constructor; [try exact I |]); try constructor.
    - intros x Hx. vm_compute in Hx. injection Hx as <-. vm_compute. reflexivity.
    - intros x Hx. vm_compute in Hx. injection Hx as <-. vm_compute. reflexivity. }
  split; [exact Hall |].
  split; [exact (proj2 (proj2 (proj2 (no_output_before_shaft_match _ _ Hall)))) |].
  split; vm_compute; reflexivity.
Defined.

(** X13. When there is no file "bearing.csv" the program starts with an
    empty catalog, and then no variable is ever written: whatever the
    user types and however often the button is pressed, all ten grey
    labels stay empty. *)
Theorem no_catalog_no_output (fs : filesystem) (events : list event) :
  fs !! "bearing.csv" = None ->
  exists st,
    program fs events = Ok st /\
    forall v, var_get v st = "".
Proof.
  intros Hmissing. exists (mainloop [] events). split.
  - unfold program, load_bearings, isfile. rewrite Hmissing. reflexivity.
  - apply (mainloop_invariant [] (fun _ => True) (fun st => forall v, var_get v st = ""));
      [reflexivity | | apply Forall_True].
    intros st ev _ Hst. pose proof (step_cases [] st ev) as H.
    destruct ev as [e text |].
    + destruct H as [H | [(-> & sd & r & _ & Hfind & _) | (-> & sd & r & _ & Hfind & _)]];
        [rewrite H; exact Hst | discriminate Hfind ..].
    + destruct H as [H | (i & Hp & H)]; [rewrite H; exact Hst |].
      exfalso. unfold parsed in Hp. decompose [and] Hp.
      rewrite (Hst cycloidal_disc_id_var), float_of_empty_text in *. discriminate.
Qed.

Lemma no_catalog_no_output_witness :
  exists st,
    program (∅ : filesystem) session = Ok st /\
    forall v, var_get v st = "".
Proof.
  apply (no_catalog_no_output ∅ session). reflexivity.
Defined.

(** *** From the file to the window *)

Lemma Forall2_loads_In (rows : list csv_row) (cat : list bearing) (row : csv_row) :
  Forall2 loads_as rows cat -> In row rows ->
  exists b, In b cat /\ loads_as row b.
Proof.
  induction 1 as [| row' b' rows' cat' Hrow Hrest IH]; intros Hin.
  - inversion Hin.
  - destruct Hin as [<- | Hin].
    + exists b'. split; [left; reflexivity | exact Hrow].
    + destruct (IH Hin) as (b & Hb & Hloads). exists b. split; [right; exact Hb | exact Hloads].
Qed.

(** X14. Typing the inner diameter of a row of the catalog file, as the
    file writes it, always finds a bearing when the number is finite:
    once the catalog has loaded, the shaft handler stores the outer
    diameter of a bearing of the catalog that matches the number, in the
    shaft bearing outer diameter and in the cycloidal disc inner
    diameter. *)
Theorem typing_a_catalog_diameter_matches
    (fs : filesystem) (csv_filename : string) (rows : list csv_row)
    (cat : list bearing) (row : csv_row) (s : string) (x : Py.binary64) (st : gui) :
  fs !! csv_filename = Some (RegularFile rows) ->
  load_bearings fs csv_filename = Ok cat ->
  In row rows ->
  row !! "ID" = Some (Some s) ->
  Py.float_of_string s = Some x ->
  Py.is_finite x = true ->
  get entry_shaft_diameter st = s ->
  exists st' r,
    on_shaft_diameter_change cat st = Ok st' /\
    In r cat /\ id_matches r x = true /\
    var_get bearing_od_var st' = Py.str (OD r) /\
    var_get cycloidal_disc_id_var st' = Py.str (OD r).
Proof.
  intros Hfile Hload Hin Hid Hx Hfin Htext.
  apply (load_bearings_loads fs csv_filename rows cat Hfile) in Hload.
  destruct (Forall2_loads_In rows cat row Hload Hin) as (b & Hb & Hloads).
  destruct Hloads as (_ & (s' & Hs' & Hparse) & _).
  assert (Hbx : ID b = x) by congruence.
  assert (Hmatch : id_matches b x = true).
  { rewrite <- Hbx. apply id_matches_own. rewrite Hbx. exact Hfin. }
  destruct (find_bearing_by_ID cat x) as [r |] eqn:Hfind.
  - destruct (find_bearing_by_ID_In cat x r Hfind) as (Hr & Hrx).
    eexists. exists r. split.
    + unfold on_shaft_diameter_change, try_ValueError, Py.float.
      rewrite Htext, Hx, Hfind. reflexivity.
    + split; [exact Hr |]. split; [exact Hrx |]. split; reflexivity.
  - exfalso. apply find_bearing_by_ID_None in Hfind.
    rewrite List.Forall_forall in Hfind. specialize (Hfind b Hb). congruence.
Qed.

Lemma typing_a_catalog_diameter_matches_witness :
  exists st' r,
    on_shaft_diameter_change [bearing_B1]
      (set_entry entry_shaft_diameter "10.0" initial) = Ok st' /\
    In r [bearing_B1] /\
    id_matches r (Py.float_of_decimal false 100 (-1)) = true /\
    var_get bearing_od_var st' = Py.str (OD r) /\
    var_get cycloidal_disc_id_var st' = Py.str (OD r).
Proof.
  apply (typing_a_catalog_diameter_matches fs_B1 "bearing.csv"
           [make_row "B1" "10.0" "22.0" "6.0"] [bearing_B1]
           (make_row "B1" "10.0" "22.0" "6.0") "10.0").
  - vm_compute. reflexivity.
  - vm_compute. reflexivity.
  - left. reflexivity.
  - vm_compute. reflexivity.
  - vm_compute. reflexivity.
  - reflexivity.
  - reflexivity.
Defined.

(** *** The number of drive rollers is converted by [int] *)

Lemma lstrip_keeps (c : ascii) (s : list ascii) :
  Py.is_space c = false -> In c s -> In c (Py.lstrip s).
Proof.
  intros Hc. induction s as [| d s IH]; simpl; [tauto |].
  intros [-> | Hin].
  - rewrite Hc. left. reflexivity.
  - destruct (Py.is_space d); [exact (IH Hin) | right; exact Hin].
Qed.

Lemma strip_keeps (c : ascii) (s : list ascii) :
  Py.is_space c = false -> In c s -> In c (Py.strip s).
Proof.
  intros Hc Hin. unfold Py.strip, Py.rstrip.
  apply in_rev. rewrite rev_involutive.
  apply lstrip_keeps; [exact Hc |].
  apply in_rev. rewrite rev_involutive.
  apply lstrip_keeps; assumption.
Qed.

Lemma strip_underscores_keeps (c : ascii) (s : list ascii) :
  c <> "_"%char ->
  forall prev u, Py.strip_underscores prev s = Some u -> In c s -> In c u.
Proof.
  intros Hc. induction s as [| d s IH]; intros prev u Hu Hin; [destruct Hin |].
  assert (Hrec : forall p w, option_map (cons d) (Py.strip_underscores p s) = Some w ->
                             In c (d :: s) -> In c w).
  { intros p w Hw [-> | Hin'].
    - destruct (Py.strip_underscores p s); [| discriminate Hw].
      injection Hw as <-. left. reflexivity.
    - destruct (Py.strip_underscores p s) as [w' |] eqn:Hs; [| discriminate Hw].
      injection Hw as <-. right. exact (IH p w' Hs Hin'). }
  destruct (Ascii.eqb d "_"%char) eqn:Hd.
  - apply Ascii.eqb_eq in Hd. subst d. simpl in Hu.
    destruct Hin as [<- | Hin]; [congruence |].
    destruct prev as [p |]; [| discriminate Hu].
    destruct (Py.is_digit p); [| discriminate Hu].
    exact (IH _ u Hu Hin).
  - assert (Hstep : Py.strip_underscores prev (d :: s) =
                    match prev with
                    | Some "_"%char =>
                        if Py.is_digit d
                        then option_map (cons d) (Py.strip_underscores (Some d) s)
                        else None
                    | _ => option_map (cons d) (Py.strip_underscores (Some d) s)
                    end).
    { destruct d as [[] [] [] [] [] [] [] []]; try reflexivity; discriminate Hd. }
    rewrite Hstep in Hu.
    destruct prev as [p |]; [| exact (Hrec _ u Hu Hin)].
    destruct (Ascii.eqb p "_"%char) eqn:Hp.
    + apply Ascii.eqb_eq in Hp. subst p.
      destruct (Py.is_digit d); [exact (Hrec _ u Hu Hin) | discriminate Hu].
    + assert (Hu' : option_map (cons d) (Py.strip_underscores (Some d) s) = Some u).
      { destruct p as [[] [] [] [] [] [] [] []]; try exact Hu; discriminate Hp. }
      exact (Hrec _ u Hu' Hin).
Qed.

(** [int] refuses a text with a decimal point. *)
Lemma int_refuses_point (s : string) :
  In "."%char (list_ascii_of_string s) -> Py.int s = Raise ValueError.
Proof.
  intros Hin. unfold Py.int, Py.int_of_string.
  apply (strip_keeps "."%char _ eq_refl) in Hin.
  destruct (Py.split_sign (Py.strip (list_ascii_of_string s))) as [neg r] eqn:Hsign.
  assert (Hr : In "."%char r).
  { unfold Py.split_sign in Hsign.
    destruct (Py.strip (list_ascii_of_string s)) as [| d t]; [destruct Hin |].
    destruct (Ascii.eqb d "-"%char) eqn:Hm.
    - apply Ascii.eqb_eq in Hm. subst d. injection Hsign as <- <-.
      destruct Hin as [H | H]; [discriminate H | exact H].
    - destruct (Ascii.eqb d "+"%char) eqn:Hp.
      + apply Ascii.eqb_eq in Hp. subst d. injection Hsign as <- <-.
        destruct Hin as [H | H]; [discriminate H | exact H].
      + assert (Hsame : r = d :: t).
        { destruct d as [[] [] [] [] [] [] [] []];
            try (injection Hsign as <- <-; reflexivity);
            first [discriminate Hm | discriminate Hp]. }
        subst r. exact Hin. }
  destruct (Py.strip_underscores None r) as [[| d ds] |] eqn:Hu; try reflexivity.
  assert (Hpoint : In "."%char (d :: ds)).
  { apply (strip_underscores_keeps "."%char r ltac:(discriminate) None _ Hu Hr). }
  destruct (forallb Py.is_digit (d :: ds)) eqn:Hall; [| reflexivity].
  rewrite forallb_forall in Hall. specialize (Hall _ Hpoint). discriminate Hall.
Qed.

(** X15. The number of drive rollers must be written as an integer: a
    text with a decimal point there ("8.0", "8.") aborts the full
    calculation, which leaves the state as it was, though the same text
    is accepted in every other field. *)
Theorem decimal_roller_count_aborts (st : gui) :
  In "."%char (list_ascii_of_string (get entry_num_drive_rollers st)) ->
  calculate_cycloidal_params st = Ok st.
Proof.
  intros Hpoint.
  unfold calculate_cycloidal_params, try_ValueError.
  rewrite (read_inputs_fails st); [reflexivity |].
  right. left. exact (int_refuses_point _ Hpoint).
Qed.

Lemma decimal_roller_count_aborts_witness :
  Py.float "8.0" = Ok (Py.float_of_decimal false 8 0) /\
  calculate_cycloidal_params (set_entry entry_num_drive_rollers "8.0" gui_example)
  = Ok (set_entry entry_num_drive_rollers "8.0" gui_example).
Proof.
  split; [vm_compute; reflexivity |].
  apply (decimal_roller_count_aborts (set_entry entry_num_drive_rollers "8.0" gui_example)).
  right. left. reflexivity.
Defined.
